(** * Saving and loading models: the checkpoint cells of
    [Part 6 - Saving and Loading Models]

    The notebook builds a fully-connected network with [fc_model.Network],
    writes a checkpoint dictionary with [torch.save] and reads it back in
    [load_checkpoint].  This file embeds those cells over an explicit
    interpreter state (object heap, file system, log of framework calls) and
    proves the properties of the checkpoint manager. *)

From Stdlib Require Import ZArith List.
From Stdlib.Strings Require Import String Ascii Byte.
From stdpp Require Import base option list strings pretty gmap fin_maps.

Set Warnings "-register-all".

Local Open Scope Z_scope.
Local Open Scope string_scope.
Local Open Scope list_scope.

(** ** Tensors and pickled Python values *)

(** How [torch.load] fails on bytes that it cannot read back: the number it
    unpickles first is not its magic number (another format), the bytes end
    too early (an empty or a cut-off file), the archive cannot be read, or
    the bytes are no pickle at all. *)
Inductive load_failure : Type :=
| InvalidMagicNumber
| EndOfFile
| ReadFailure
| InvalidPickle.

Section Values.
(** The scalar type of tensor entries (a float in the notebook); no
    arithmetic on it is needed to save or load. *)
Variable R : Type.

(** A [torch.Tensor]: its [shape] (as [torch.Size]) and its entries in
    row-major order. *)
Record tensor : Type := Tensor { shape : list Z; data : list R }.

(** The values that a pickle written by [torch.save] can hold here. *)
Inductive pyobj : Type :=
| PyInt (z : Z)
| PyStr (s : string)
| PyTensor (t : tensor)
| PyList (xs : list pyobj)
| PyDict (kvs : list (string * pyobj)).

(** [nn.Linear]: [weight] has shape [(out_features, in_features)],
    [bias] has shape [(out_features,)]. *)
Record Linear : Type := MkLinear {
  in_features : Z;
  out_features : Z;
  weight : tensor;
  bias : tensor
}.

(** An instance of [fc_model.Network], as the notebook prints it: the
    [hidden_layers] module list and the [output] layer (the [dropout]
    module has no parameters). *)
Record Network : Type := MkNetwork {
  hidden_layers : list Linear;
  output : Linear
}.

(** What a path of the file system holds.  The byte layout of a pickle is
    the serializer's business: a file is kept as what [torch.load] makes of
    it, the value that it gets back, or, for bytes that it cannot read
    (arbitrary, truncated or of another format), the way it fails on
    them. *)
Inductive file : Type :=
| Pickle (v : pyobj)
| Raw (bytes : list byte) (failure : load_failure).
End Values.

Arguments Tensor {R} _ _.
Arguments shape {R} _.
Arguments data {R} _.
Arguments PyInt {R} _.
Arguments PyStr {R} _.
Arguments PyTensor {R} _.
Arguments PyList {R} _.
Arguments PyDict {R} _.
Arguments MkLinear {R} _ _ _ _.
Arguments in_features {R} _.
Arguments out_features {R} _.
Arguments weight {R} _.
Arguments bias {R} _.
Arguments MkNetwork {R} _ _.
Arguments hidden_layers {R} _.
Arguments output {R} _.
Arguments Pickle {R} _.
Arguments Raw {R} _ _.

(** ** Exceptions *)

(** One entry of the message list of [load_state_dict]'s [RuntimeError]. *)
Inductive sd_error : Type :=
| MissingKey (name : string)
| UnexpectedKey (name : string)
| SizeMismatch (name : string) (in_model in_checkpoint : list Z)
| NotATensor (name : string).

(** The Python exceptions the cells can raise.  There are two
    [RuntimeError]s: the one of [load_state_dict], with its messages, and
    the one of [torch.load] (['Invalid magic number; corrupt file?']). *)
Inductive exn : Type :=
| FileNotFoundError (path : string)
| UnpicklingError
| EOFError
| OSError
| KeyError (key : string)
| TypeError
| AttributeError
| IndexError
| ValueError
| NameError
| RuntimeError (msgs : list sd_error)
| RuntimeError_corrupt_file.

(** The exception that [torch.load] raises for a failure. *)
Definition failure_exn (failure : load_failure) : exn :=
  match failure with
  | InvalidMagicNumber => RuntimeError_corrupt_file
  | EndOfFile => EOFError
  | ReadFailure => OSError
  | InvalidPickle => UnpicklingError
  end.

Inductive result (A : Type) : Type :=
| Ok (a : A)
| Raise (e : exn).
Arguments Ok {A} _.
Arguments Raise {A} _.

(** The two error classes of the checkpoint manager, by the class of the
    Python exception, which is all that a caller can catch.
    [StructureMismatch] is [RuntimeError], the class that
    [load_state_dict] raises; [CorruptArtifact] is every other class
    raised on the way through a file that is there: a failure to read the
    source, to use it as a checkpoint dictionary or to build a model from
    its descriptor. *)
Definition StructureMismatch (e : exn) : bool :=
  match e with
  | RuntimeError _ | RuntimeError_corrupt_file => true
  | _ => false
  end.

Definition CorruptArtifact (e : exn) : bool :=
  match e with
  | UnpicklingError | EOFError | OSError | KeyError _ | TypeError | AttributeError
  | IndexError | ValueError => true
  | _ => false
  end.

(** ** The interpreter state and its monad *)

(** The framework calls a cell makes, in the order it makes them. *)
Inductive call : Type :=
| CallTorchSave (path : string)
| CallTorchLoad (path : string)
| CallNetwork (input_size output_size : Z) (hidden : list Z)
| CallLoadStateDict (obj : nat).

Section Interp.
Variable R : Type.

(** [heap] holds the [Network] objects (a reference is an index into it),
    [fs] maps a path to the file stored there, [calls] logs the framework
    calls made so far. *)
Record world : Type := World {
  heap : list (Network R);
  fs : gmap string (file R);
  calls : list call
}.

(** A computation that may raise; the state persists after a raise, as a
    notebook kernel's does. *)
Definition py (A : Type) : Type := world -> result A * world.

Definition ret {A} (a : A) : py A := fun w => (Ok a, w).
Definition raise {A} (e : exn) : py A := fun w => (Raise e, w).
Definition bind {A B} (c : py A) (k : A -> py B) : py B :=
  fun w => match c w with
           | (Ok a, w') => k a w'
           | (Raise e, w') => (Raise e, w')
           end.
Definition lift {A} (r : result A) : py A := fun w => (r, w).
Definition log (c : call) : py unit :=
  fun w => (Ok tt, World (heap w) (fs w) (calls w ++ [c])).
End Interp.

Arguments World {R} _ _ _.
Arguments heap {R} _.
Arguments fs {R} _.
Arguments calls {R} _.
Arguments ret {R A} _ _.
Arguments raise {R A} _ _.
Arguments bind {R A B} _ _ _.
Arguments lift {R A} _ _.
Arguments log {R} _ _.

Notation "'let*' x ':=' c 'in' k" := (bind c (fun x => k))
  (at level 10, x pattern, c at level 100, k at level 200).

(** ** Dictionaries and dynamic typing *)

(** [d[key]] on the items of a dictionary. *)
Fixpoint dict_get {A} (kvs : list (string * A)) (key : string) : option A :=
  match kvs with
  | [] => None
  | (k, v) :: rest => if decide (k = key) then Some v else dict_get rest key
  end.

(** [obj[key]] with a string key: only a dictionary can be indexed so. *)
Definition getitem {R} (obj : pyobj R) (key : string) : result (pyobj R) :=
  match obj with
  | PyDict kvs =>
      match dict_get kvs key with
      | Some v => Ok v
      | None => Raise (KeyError key)
      end
  | _ => Raise TypeError
  end.

(** An argument used as an integer size. *)
Definition as_int {R} (obj : pyobj R) : result Z :=
  match obj with PyInt z => Ok z | _ => Raise TypeError end.

Fixpoint as_ints {R} (xs : list (pyobj R)) : result (list Z) :=
  match xs with
  | [] => Ok []
  | x :: rest =>
      match as_int x, as_ints rest with
      | Ok z, Ok zs => Ok (z :: zs)
      | Raise e, _ => Raise e
      | _, Raise e => Raise e
      end
  end.

(** An argument used as a list of integer sizes. *)
Definition as_int_list {R} (obj : pyobj R) : result (list Z) :=
  match obj with PyList xs => as_ints xs | _ => Raise TypeError end.

(** ** The framework: [torch.save], [torch.load], [nn.Linear] *)

Section Framework.
Context {R : Type}.

(** [torch.save(obj, path)] replaces whatever [path] held by the pickle
    of [obj]. *)
Definition torch_save (obj : pyobj R) (path : string) : py R unit :=
  let* _ := log (CallTorchSave path) in
  fun w => (Ok tt, World (heap w) (<[path := Pickle obj]> (fs w)) (calls w)).

(** [torch.load(path)] returns the pickled value; it raises when there is
    no file, and when it cannot read the bytes, then with the exception of
    that failure. *)
Definition torch_load (path : string) : py R (pyobj R) :=
  let* _ := log (CallTorchLoad path) in
  fun w => match fs w !! path with
           | None => (Raise (FileNotFoundError path), w)
           | Some (Raw _ failure) => (Raise (failure_exn failure), w)
           | Some (Pickle v) => (Ok v, w)
           end.

(** A new object on the heap; its reference is its index. *)
Definition alloc (m : Network R) : py R nat :=
  fun w => (Ok (length (heap w)), World (heap w ++ [m]) (fs w) (calls w)).

(** The object behind a reference. *)
Definition deref (obj : nat) : py R (Network R) :=
  fun w => match heap w !! obj with
           | Some m => (Ok m, w)
           | None => (Raise NameError, w)
           end.

(** The initial entries of the parameter called [name]: the framework
    draws them at random, [init] stands for the draw. *)
Definition fill (init : string -> Z -> R) (name : string) (n : Z) : list R :=
  map (init name) (seqZ 0 n).

(** [nn.Linear(in_features, out_features)] registered under [prefix]. *)
Definition nn_Linear (init : string -> Z -> R) (prefix : string)
    (i o : Z) : Linear R :=
  MkLinear i o
    (Tensor [o; i] (fill init (prefix +:+ ".weight") (o * i)))
    (Tensor [o] (fill init (prefix +:+ ".bias") o)).

(** The registered name of the [k]-th hidden layer. *)
Definition hidden_name (k : nat) : string := "hidden_layers." +:+ pretty k.
End Framework.

(** ** [fc_model.Network] *)

Section Model.
Context {R : Type}.

(** The hidden layers for the sizes [hs], the [k]-th one of them reading
    [prev] features. *)
Fixpoint chain (init : string -> Z -> R) (k : nat) (prev : Z) (hs : list Z)
    : list (Linear R) :=
  match hs with
  | [] => []
  | h :: rest => nn_Linear init (hidden_name k) prev h :: chain init (S k) h rest
  end.

(** Modelled from the spec: the body of [fc_model.Network.__init__], which
    the notebook imports.  A fully-connected network for a ModelDescriptor:
    [input_size] and [output_size] are positive, [hidden] is a sequence of
    positive sizes, one per hidden layer in forward order; the layers are
    the ones the notebook prints for it ([hidden_layers.0] reads
    [input_size] features, each later layer reads what the one before
    writes, [output] reads the last hidden size).  A sequence with no
    first element has no first layer. *)
Definition Network_init (init : string -> Z -> R)
    (input_size output_size : Z) (hidden : list Z) : result (Network R) :=
  match hidden with
  | [] => Raise IndexError
  | h0 :: _ =>
      if forallb (Z.ltb 0) (input_size :: output_size :: hidden)
      then Ok (MkNetwork (chain init 0 input_size hidden)
                         (nn_Linear init "output" (List.last hidden h0) output_size))
      else Raise ValueError
  end.

(** The call [fc_model.Network(input_size, output_size, hidden_layers)]:
    the arguments are used as an integer, an integer and a list of
    integers, and the new object is returned by reference. *)
Definition fc_model_Network (init : string -> Z -> R)
    (input_size output_size hidden_layers : pyobj R) : py R nat :=
  let* i := lift (as_int input_size) in
  let* o := lift (as_int output_size) in
  let* h := lift (as_int_list hidden_layers) in
  let* _ := log (CallNetwork i o h) in
  let* m := lift (Network_init init i o h) in
  alloc m.

(** The layers with their registered names, from the [k]-th hidden one. *)
Fixpoint named_hidden (k : nat) (ls : list (Linear R)) : list (string * Linear R) :=
  match ls with
  | [] => []
  | l :: rest => (hidden_name k, l) :: named_hidden (S k) rest
  end.

Definition named_layers (m : Network R) : list (string * Linear R) :=
  named_hidden 0 (hidden_layers m) ++ [("output", output m)].

Definition layer_parameters (nl : string * Linear R) : list (string * tensor R) :=
  [(fst nl +:+ ".weight", weight (snd nl)); (fst nl +:+ ".bias", bias (snd nl))].

(** [model.state_dict()]: every parameter under its qualified name, in
    registration order. *)
Definition state_dict (m : Network R) : list (string * tensor R) :=
  flat_map layer_parameters (named_layers m).

(** The state dict as the dictionary object that is pickled. *)
Definition state_dict_obj (m : Network R) : pyobj R :=
  PyDict (map (fun kt => (fst kt, PyTensor (snd kt))) (state_dict m)).

(** The pickled items of a list of named layers. *)
Definition entries (nls : list (string * Linear R)) : list (string * pyobj R) :=
  map (fun kt => (fst kt, PyTensor (snd kt))) (flat_map layer_parameters nls).

(** The architecture fields of a model, read off its layers. *)
Definition input_size (m : Network R) : Z :=
  match hidden_layers m with
  | l :: _ => in_features l
  | [] => in_features (output m)
  end.
Definition output_size (m : Network R) : Z := out_features (output m).
Definition hidden_layer_sizes (m : Network R) : list Z :=
  map out_features (hidden_layers m).
End Model.

(** ** [model.load_state_dict] *)

Section LoadStateDict.
Context {R : Type}.

(** Copying the entry stored under [key] into the parameter [p]: it is
    copied only when it is a tensor of [p]'s shape. *)
Definition copy_tensor (kvs : list (string * pyobj R)) (key : string)
    (p : tensor R) : tensor R :=
  match dict_get kvs key with
  | Some (PyTensor t) =>
      if decide (shape t = shape p) then Tensor (shape p) (data t) else p
  | _ => p
  end.

Definition copy_layer (kvs : list (string * pyobj R)) (prefix : string)
    (l : Linear R) : Linear R :=
  MkLinear (in_features l) (out_features l)
    (copy_tensor kvs (prefix +:+ ".weight") (weight l))
    (copy_tensor kvs (prefix +:+ ".bias") (bias l)).

Fixpoint copy_hidden (kvs : list (string * pyobj R)) (k : nat)
    (ls : list (Linear R)) : list (Linear R) :=
  match ls with
  | [] => []
  | l :: rest => copy_layer kvs (hidden_name k) l :: copy_hidden kvs (S k) rest
  end.

Definition copy_params (kvs : list (string * pyobj R)) (m : Network R) : Network R :=
  MkNetwork (copy_hidden kvs 0 (hidden_layers m))
            (copy_layer kvs "output" (output m)).

(** What goes wrong for the parameter [p] called [key], if anything. *)
Definition copy_error (kvs : list (string * pyobj R)) (kp : string * tensor R)
    : option sd_error :=
  match dict_get kvs (fst kp) with
  | None => None
  | Some (PyTensor t) =>
      if decide (shape t = shape (snd kp)) then None
      else Some (SizeMismatch (fst kp) (shape (snd kp)) (shape t))
  | Some _ => Some (NotATensor (fst kp))
  end.

Definition missing_keys (kvs : list (string * pyobj R)) (m : Network R) : list string :=
  filter (fun k => dict_get kvs k = None) (map fst (state_dict m)).

Definition unexpected_keys (kvs : list (string * pyobj R)) (m : Network R) : list string :=
  filter (fun k => k ∉ map fst (state_dict m)) (map fst kvs).

(** The message list of a (strict) load: missing keys, unexpected keys,
    then the parameters that could not be copied. *)
Definition load_errors (kvs : list (string * pyobj R)) (m : Network R) : list sd_error :=
  map MissingKey (missing_keys kvs m)
  ++ map UnexpectedKey (unexpected_keys kvs m)
  ++ omap (copy_error kvs) (state_dict m).

(** [model.load_state_dict(state_dict)], the framework's strict load: a
    parameter is overwritten in place by the entry stored under its name
    when that entry is a tensor of the parameter's shape; a key on one side
    only, or an entry that does not fit, adds a message, and any message
    makes the call raise a [RuntimeError] after the copies.  The cell that
    loads into [fc_model.Network(784, 10, [400, 200, 100])] records such a
    message list. *)
Definition load_state_dict (model : nat) (state_dict : pyobj R) : py R unit :=
  let* _ := log (CallLoadStateDict model) in
  let* m := deref model in
  match state_dict with
  | PyDict kvs =>
      fun w =>
        let w' := World (<[model := copy_params kvs m]> (heap w)) (fs w) (calls w) in
        match load_errors kvs m with
        | [] => (Ok tt, w')
        | errs => (Raise (RuntimeError errs), w')
        end
  | _ => raise AttributeError
  end.
End LoadStateDict.

(** ** The notebook's cells *)

Section Cells.
Context {R : Type}.

(** The dictionary literal of the saving cell, for the object [model]
    denotes. *)
Definition checkpoint (m : Network R) : pyobj R :=
  PyDict [("input_size", PyInt 784);
          ("output_size", PyInt 10);
          ("hidden_layers", PyList (map (fun each => PyInt (out_features each))
                                        (hidden_layers m)));
          ("state_dict", state_dict_obj m)].

(** The saving cell: [checkpoint = {...}] then
    [torch.save(checkpoint, 'checkpoint.pth')]. *)
Definition save (model : nat) : py R unit :=
  let* m := deref model in
  torch_save (checkpoint m) "checkpoint.pth".

(** The earlier cell [torch.save(model.state_dict(), 'checkpoint.pth')]. *)
Definition save_state_dict (model : nat) : py R unit :=
  let* m := deref model in
  torch_save (state_dict_obj m) "checkpoint.pth".

Definition load_checkpoint (init : string -> Z -> R) (filepath : string) : py R nat :=
  let* checkpoint := torch_load filepath in
  let* input_size := lift (getitem checkpoint "input_size") in
  let* output_size := lift (getitem checkpoint "output_size") in
  let* hidden_layers := lift (getitem checkpoint "hidden_layers") in
  let* model := fc_model_Network init input_size output_size hidden_layers in
  let* state_dict := lift (getitem checkpoint "state_dict") in
  let* _ := load_state_dict model state_dict in
  ret model.
End Cells.

(** ** The forward pass *)

Section Forward.
Context {R : Type}.
(** Float arithmetic and the framework's activation functions; [dropout]
    is what the dropout module does to an activation vector in the
    evaluation at hand. *)
Variables (zero : R) (add mul : R -> R -> R) (relu : R -> R).
Variables (dropout log_softmax : list R -> list R).

(** The [n] rows of a row-major matrix whose rows have [width] entries. *)
Fixpoint rows (n width : nat) (xs : list R) : list (list R) :=
  match n with
  | O => []
  | S n' => take width xs :: rows n' width (drop width xs)
  end.

Definition dot (u v : list R) : R := foldr add zero (zip_with mul u v).

(** [each(x)] for a linear layer: [weight @ x + bias]. *)
Definition linear (l : Linear R) (x : list R) : list R :=
  zip_with add
    (map (fun row => dot row x)
         (rows (Z.to_nat (out_features l)) (Z.to_nat (in_features l))
               (data (weight l))))
    (data (bias l)).

(** Modelled from the spec: [fc_model.Network.forward], the forward
    computation of the fully-connected network, through the modules the
    notebook prints: every hidden layer, activation and dropout, then the
    output layer and the log-softmax that [nn.NLLLoss] expects. *)
Definition forward (m : Network R) (x : list R) : list R :=
  log_softmax
    (linear (output m)
       (foldl (fun x each => dropout (map relu (linear each x))) x
              (hidden_layers m))).
End Forward.

(** ** Valid models *)

Section Valid.
Context {R : Type}.

Definition numel (sh : list Z) : Z := foldr Z.mul 1 sh.

Definition tensor_ok (sh : list Z) (t : tensor R) : Prop :=
  shape t = sh /\ length (data t) = Z.to_nat (numel sh).

(** A linear layer whose parameters have the shapes of its features. *)
Definition layer_ok (l : Linear R) : Prop :=
  0 < in_features l /\ 0 < out_features l /\
  tensor_ok [out_features l; in_features l] (weight l) /\
  tensor_ok [out_features l] (bias l).

(** Hidden layers that follow one another, the first reading [prev]
    features; [last_out] is what the last one writes. *)
Fixpoint chain_ok (prev : Z) (ls : list (Linear R)) (last_out : Z) : Prop :=
  match ls with
  | [] => prev = last_out
  | l :: rest => in_features l = prev /\ layer_ok l /\ chain_ok (out_features l) rest last_out
  end.

(** Two layers with the same features and the same parameter shapes. *)
Definition same_layout (l0 l : Linear R) : Prop :=
  in_features l0 = in_features l /\ out_features l0 = out_features l /\
  shape (weight l0) = shape (weight l) /\ shape (bias l0) = shape (bias l).

(** Two models with the same architecture. *)
Definition same_architecture (m0 m : Network R) : Prop :=
  Forall2 same_layout (hidden_layers m0) (hidden_layers m) /\
  same_layout (output m0) (output m).

(** The dict [kvs] holds the parameters of the layers [ls] under the
    names of the hidden layers from index [k] on. *)
Definition holds_hidden (kvs : list (string * pyobj R)) (k : nat)
    (ls : list (Linear R)) : Prop :=
  forall j l, ls !! j = Some l ->
    dict_get kvs (hidden_name (k + j) +:+ ".weight") = Some (PyTensor (weight l)) /\
    dict_get kvs (hidden_name (k + j) +:+ ".bias") = Some (PyTensor (bias l)).

(** A valid model: a fully-connected network with positive sizes and at
    least one hidden layer, each layer reading what the previous one
    writes. *)
Definition valid (m : Network R) : Prop :=
  hidden_layers m <> [] /\
  chain_ok (input_size m) (hidden_layers m) (in_features (output m)) /\
  layer_ok (output m).
End Valid.

(** ** Reading a checkpoint's contents *)

Section Contents.
Context {R : Type}.

(** The shape of the tensor stored under [key], if there is one. *)
Definition shape_at (kvs : list (string * pyobj R)) (key : string) : option (list Z) :=
  match dict_get kvs key with
  | Some (PyTensor t) => Some (shape t)
  | _ => None
  end.

(** The shapes of the weight matrices of a state dict with [n] hidden
    layers, in forward order. *)
Definition weight_shapes (kvs : list (string * pyobj R)) (n : nat)
    : list (option (list Z)) :=
  map (fun k => shape_at kvs (hidden_name k +:+ ".weight")) (seq 0 n)
  ++ [shape_at kvs "output.weight"].

(** Weight matrices [(rows, columns)] that chain from [i] inputs to [o]
    outputs: each has as many columns as the one before has rows. *)
Fixpoint dims_chain (i : Z) (shapes : list (option (list Z))) (o : Z) : Prop :=
  match shapes with
  | [] => i = o
  | Some [r; c] :: rest => c = i /\ dims_chain r rest o
  | _ => False
  end.





End Contents.

(** ** The cells that save and reload the state dict alone *)

(** [state_dict = torch.load('checkpoint.pth')] then
    [model.load_state_dict(state_dict)]. *)
Definition reload_state_dict {R : Type} (model : nat) : py R unit :=
  let* state_dict := torch_load "checkpoint.pth" in
  load_state_dict model state_dict.

(** ** The training loop of [Training Neural Networks] *)

Section Training.
(** The type of a loss value (a float), with the additions and the division
    the loop makes on it. *)
Variable L : Type.
Variables (zero : L) (add : L -> L -> L) (quot : L -> Z -> L).

Definition epochs : Z := 3.
Definition print_every : Z := 40.

(** The loop's variables: [steps], [running_loss], and the lines printed so
    far, each with its epoch number and its loss. *)
Record progress : Type := Progress {
  steps : Z;
  running_loss : L;
  printed : list (Z * L)
}.

(** The body of the inner loop, for a batch whose [loss.item()] is [loss]
    (the forward pass, the backward pass and the optimizer step are the
    framework's and only give that value). *)
Definition batch (e : Z) (st : progress) (loss : L) : progress :=
  let s := steps st + 1 in
  let r := add (running_loss st) loss in
  if decide (s mod print_every = 0)
  then Progress s zero (printed st ++ [(e + 1, quot r print_every)])
  else Progress s r (printed st).

(** The body of the outer loop: [running_loss = 0], then every batch of
    the loader; [losses e] lists the losses of the batches of epoch [e]. *)
Definition epoch (losses : Z -> list L) (st : progress) (e : Z) : progress :=
  foldl (batch e) (Progress (steps st) zero (printed st)) (losses e).

(** The whole cell, from [steps = 0]. *)
Definition train_loop (losses : Z -> list L) : progress :=
  foldl (epoch losses) (Progress 0 zero []) (seqZ 0 epochs).

(** The sum of a list of losses, added in order from 0. *)
Definition total (ls : list L) : L := foldl add zero ls.

(** Of the first [j] losses of an epoch, the last [print_every] ones (all
    of them when there are fewer). *)
Definition window (ls : list L) (j : nat) : list L :=
  drop (j - Z.to_nat print_every) (take j ls).

(** The lines an epoch prints, said directly: one for each batch [j]
    (counted from 1) at which the step count, [s0] before the epoch, is a
    multiple of [print_every]; its loss is the sum of the window at [j]
    over [print_every]. *)
Definition report (e s0 : Z) (ls : list L) : list (Z * L) :=
  omap (fun j => if decide ((s0 + Z.of_nat j) mod print_every = 0)
                 then Some (e + 1, quot (total (window ls j)) print_every)
                 else None)
       (seq 1 (length ls)).
End Training.

Arguments Progress {L} _ _ _.
Arguments steps {L} _.
Arguments running_loss {L} _.
Arguments printed {L} _.

(** ** Entries that fit a layer *)

(** The dict [sd] holds, under the names of the layer registered as
    [prefix], tensors of the shapes of [l]'s parameters. *)
Definition clean_layer {R : Type} (sd : list (string * pyobj R)) (prefix : string)
    (l : Linear R) : Prop :=
  exists tw tb,
    dict_get sd (prefix +:+ ".weight") = Some (PyTensor tw) /\ shape tw = shape (weight l) /\
    dict_get sd (prefix +:+ ".bias") = Some (PyTensor tb) /\ shape tb = shape (bias l).

(** ** Concrete models *)

(** An initialiser: entry [k] of every parameter is [k]. *)
Definition ramp : string -> Z -> Z := fun _ k => k.

(** The network [fc_model.Network(i, o, [h])] over integer entries. *)
Definition example_model (i o h : Z) : Network Z :=
  MkNetwork (chain ramp 0 i [h]) (nn_Linear ramp "output" h o).

(** A kernel that holds the objects [ms] and an empty working directory. *)
Definition example_world (ms : list (Network Z)) : world Z := World ms ∅ [].

(** The network [fc_model.Network(i, o, [h])] with every entry 0. *)
Definition blank_model (i o h : Z) : Network Z :=
  MkNetwork (chain (fun _ _ => 0) 0 i [h]) (nn_Linear (fun _ _ => 0) "output" h o).


(** * Properties *)

(** ** Parameter names *)

Section Names.
Lemma to_list_append (s t : string) :
  list_ascii_of_string (s +:+ t)
  = (list_ascii_of_string s ++ list_ascii_of_string t)%list.
Proof. induction s as [|a s IH]; simpl; [reflexivity | now rewrite IH]. Qed.

Lemma to_list_inj (s t : string) :
  list_ascii_of_string s = list_ascii_of_string t -> s = t.
Proof.
  intros H. rewrite <- (string_of_list_ascii_of_string s),
    <- (string_of_list_ascii_of_string t). now rewrite H.
Qed.

Lemma append_inj_r (s1 s2 t : string) : s1 +:+ t = s2 +:+ t -> s1 = s2.
Proof.
  intros H. apply to_list_inj.
  apply (f_equal list_ascii_of_string) in H.
  rewrite !to_list_append in H. now apply app_inv_tail in H.
Qed.

Lemma weight_ne_bias (p q : string) : p +:+ ".weight" <> q +:+ ".bias".
Proof.
  intros H. apply (f_equal list_ascii_of_string) in H.
  rewrite !to_list_append in H.
  change (list_ascii_of_string ".weight")
    with (list_ascii_of_string ".weigh" ++ ["t"%char])%list in H.
  change (list_ascii_of_string ".bias")
    with (list_ascii_of_string ".bia" ++ ["s"%char])%list in H.
  rewrite !app_assoc in H. apply app_inj_tail in H as [_ H]. discriminate H.
Qed.

Lemma hidden_name_inj (j k : nat) : hidden_name j = hidden_name k -> j = k.
Proof.
  unfold hidden_name. intros H.
  apply (inj (String.app "hidden_layers.")) in H.
  now apply (inj pretty) in H.
Qed.

Lemma hidden_param_ne_output (k : nat) (s t : string) :
  hidden_name k +:+ s <> "output" +:+ t.
Proof. unfold hidden_name. simpl. discriminate. Qed.

Lemma hidden_weight_inj (j k : nat) :
  hidden_name j +:+ ".weight" = hidden_name k +:+ ".weight" -> j = k.
Proof. intros H. now apply hidden_name_inj, append_inj_r with ".weight". Qed.

Lemma hidden_bias_inj (j k : nat) :
  hidden_name j +:+ ".bias" = hidden_name k +:+ ".bias" -> j = k.
Proof. intros H. now apply hidden_name_inj, append_inj_r with ".bias". Qed.
End Names.

(** ** Looking parameters up in a state dict *)

Section StateDictLookup.
Context {R : Type}.
Implicit Types (ls : list (Linear R)) (m : Network R).

Lemma state_dict_obj_entries m : state_dict_obj m = PyDict (entries (named_layers m)).
Proof. reflexivity. Qed.

Lemma entries_cons (nl : string * Linear R) nls :
  entries (nl :: nls) =
    (fst nl +:+ ".weight", PyTensor (weight (snd nl)))
    :: (fst nl +:+ ".bias", PyTensor (bias (snd nl))) :: entries nls.
Proof. reflexivity. Qed.

Lemma dict_get_hidden_weight ls rest k j l :
  ls !! j = Some l ->
  dict_get (entries (named_hidden k ls ++ rest)) (hidden_name (k + j) +:+ ".weight")
  = Some (PyTensor (weight l)).
Proof.
  revert k j. induction ls as [|l0 ls IH]; intros k j Hj; [discriminate|].
  simpl named_hidden. rewrite <- app_comm_cons, entries_cons. simpl fst. simpl snd.
  destruct j as [|j].
  - injection Hj as ->. rewrite Nat.add_0_r. cbn [dict_get]. now rewrite decide_True.
  - simpl in Hj. cbn [dict_get].
    rewrite decide_False by (intros E; apply hidden_weight_inj in E; lia).
    rewrite decide_False by (apply not_eq_sym, weight_ne_bias).
    replace (k + S j)%nat with (S k + j)%nat by lia. now apply IH.
Qed.

Lemma dict_get_hidden_bias ls rest k j l :
  ls !! j = Some l ->
  dict_get (entries (named_hidden k ls ++ rest)) (hidden_name (k + j) +:+ ".bias")
  = Some (PyTensor (bias l)).
Proof.
  revert k j. induction ls as [|l0 ls IH]; intros k j Hj; [discriminate|].
  simpl named_hidden. rewrite <- app_comm_cons, entries_cons. simpl fst. simpl snd.
  destruct j as [|j].
  - injection Hj as ->. rewrite Nat.add_0_r. cbn [dict_get].
    rewrite decide_False by apply weight_ne_bias. now rewrite decide_True.
  - simpl in Hj. cbn [dict_get].
    rewrite decide_False by apply weight_ne_bias.
    rewrite decide_False by (intros E; apply hidden_bias_inj in E; lia).
    replace (k + S j)%nat with (S k + j)%nat by lia. now apply IH.
Qed.

Lemma dict_get_skip_hidden ls rest k (t : string) :
  dict_get (entries (named_hidden k ls ++ rest)) ("output" +:+ t)
  = dict_get (entries rest) ("output" +:+ t).
Proof.
  revert k. induction ls as [|l0 ls IH]; intros k; [reflexivity|].
  simpl named_hidden. rewrite <- app_comm_cons, entries_cons. cbn [dict_get fst snd].
  rewrite !decide_False by apply hidden_param_ne_output. apply IH.
Qed.

Lemma dict_get_output_weight m :
  dict_get (entries (named_layers m)) "output.weight" = Some (PyTensor (weight (output m))).
Proof.
  unfold named_layers.
  change "output.weight" with ("output" +:+ ".weight").
  rewrite dict_get_skip_hidden. reflexivity.
Qed.

Lemma dict_get_output_bias m :
  dict_get (entries (named_layers m)) "output.bias" = Some (PyTensor (bias (output m))).
Proof.
  unfold named_layers.
  change "output.bias" with ("output" +:+ ".bias").
  rewrite dict_get_skip_hidden. reflexivity.
Qed.
End StateDictLookup.

(** ** Loading a state dict into a model of the same architecture *)

Section Loading.
Context {R : Type}.
Implicit Types (ls : list (Linear R)) (m : Network R) (kvs : list (string * pyobj R)).

Lemma filter_none {A} (P : A -> Prop) `{!forall x, Decision (P x)} (l : list A) :
  Forall (fun x => ~ P x) l -> filter P l = [].
Proof.
  induction 1 as [|x l Hx _ IH]; [reflexivity|].
  now rewrite filter_cons_False.
Qed.

Lemma dict_get_None {A} (d : list (string * A)) key :
  dict_get d key = None <-> key ∉ map fst d.
Proof.
  induction d as [|[k v] d IH]; simpl.
  - split; [intros _; apply not_elem_of_nil | reflexivity].
  - rewrite not_elem_of_cons. destruct (decide (k = key)) as [->|Hne].
    + split; [discriminate | intros [E _]; now destruct E].
    + rewrite IH. split; [intros H; split; [congruence | exact H] | intros [_ H]; exact H].
Qed.

Lemma keys_named_hidden k ls0 ls :
  length ls0 = length ls -> map fst (named_hidden k ls0) = map fst (named_hidden k ls).
Proof.
  revert k ls. induction ls0 as [|l0 ls0 IH]; intros k [|l ls] Hlen;
    try discriminate; [reflexivity|].
  simpl. f_equal. apply IH. now injection Hlen.
Qed.

Lemma keys_flat_map (nls nls' : list (string * Linear R)) :
  map fst nls = map fst nls' ->
  map fst (flat_map layer_parameters nls) = map fst (flat_map layer_parameters nls').
Proof.
  revert nls'. induction nls as [|nl nls IH]; intros [|nl' nls'] H; try discriminate;
    [reflexivity|].
  simpl in *. injection H as -> H. now rewrite (IH _ H).
Qed.

(** The keys of a state dict only depend on the number of hidden layers. *)
Lemma keys_state_dict m0 m :
  length (hidden_layers m0) = length (hidden_layers m) ->
  map fst (state_dict m0) = map fst (state_dict m).
Proof.
  intros Hlen. apply keys_flat_map. unfold named_layers.
  rewrite !map_app. f_equal. now apply keys_named_hidden.
Qed.

Lemma keys_entries (nls : list (string * Linear R)) :
  map fst (entries nls) = map fst (flat_map layer_parameters nls).
Proof. unfold entries. rewrite map_map. reflexivity. Qed.

Lemma copy_tensor_fits kvs key (p t : tensor R) :
  dict_get kvs key = Some (PyTensor t) -> shape p = shape t ->
  copy_tensor kvs key p = t.
Proof.
  intros Hget Hsh. unfold copy_tensor. rewrite Hget, decide_True by congruence.
  rewrite Hsh. now destruct t.
Qed.

Lemma copy_layer_fits kvs prefix (l0 l : Linear R) :
  dict_get kvs (prefix +:+ ".weight") = Some (PyTensor (weight l)) ->
  dict_get kvs (prefix +:+ ".bias") = Some (PyTensor (bias l)) ->
  same_layout l0 l ->
  copy_layer kvs prefix l0 = l.
Proof.
  intros Hw Hb (Hi & Ho & Hsw & Hsb). unfold copy_layer.
  rewrite (copy_tensor_fits _ _ _ _ Hw Hsw), (copy_tensor_fits _ _ _ _ Hb Hsb), Hi, Ho.
  now destruct l.
Qed.

Lemma copy_error_fits kvs prefix (l0 l : Linear R) :
  dict_get kvs (prefix +:+ ".weight") = Some (PyTensor (weight l)) ->
  dict_get kvs (prefix +:+ ".bias") = Some (PyTensor (bias l)) ->
  same_layout l0 l ->
  omap (copy_error kvs) (layer_parameters (prefix, l0)) = [].
Proof.
  intros Hw Hb (_ & _ & Hsw & Hsb). unfold layer_parameters, copy_error. simpl.
  rewrite Hw, Hb, !decide_True by congruence. reflexivity.
Qed.

Lemma holds_hidden_tail kvs k l ls :
  holds_hidden kvs k (l :: ls) -> holds_hidden kvs (S k) ls.
Proof.
  intros H j l' Hj. replace (S k + j)%nat with (k + S j)%nat by lia. now apply H.
Qed.

Lemma copy_hidden_fits kvs k ls0 ls :
  holds_hidden kvs k ls -> Forall2 same_layout ls0 ls -> copy_hidden kvs k ls0 = ls.
Proof.
  intros Hh Hf. revert k Hh. induction Hf as [|l0 l ls0 ls Hl _ IH]; intros k Hh;
    [reflexivity|].
  simpl. destruct (Hh 0%nat l eq_refl) as [Hw Hb]. rewrite Nat.add_0_r in Hw, Hb.
  rewrite (copy_layer_fits _ _ _ _ Hw Hb Hl). f_equal.
  apply IH. eapply holds_hidden_tail, Hh.
Qed.

Lemma copy_error_hidden_fits kvs k ls0 ls :
  holds_hidden kvs k ls -> Forall2 same_layout ls0 ls ->
  omap (copy_error kvs) (flat_map layer_parameters (named_hidden k ls0)) = [].
Proof.
  intros Hh Hf. revert k Hh. induction Hf as [|l0 l ls0 ls Hl _ IH]; intros k Hh;
    [reflexivity|].
  cbn [named_hidden flat_map]. rewrite omap_app.
  destruct (Hh 0%nat l eq_refl) as [Hw Hb]. rewrite Nat.add_0_r in Hw, Hb.
  rewrite (copy_error_fits _ _ _ _ Hw Hb Hl). simpl.
  apply IH. eapply holds_hidden_tail, Hh.
Qed.

Lemma holds_hidden_state_dict m :
  holds_hidden (entries (named_layers m)) 0 (hidden_layers m).
Proof.
  intros j l Hj. unfold named_layers. split.
  - now apply dict_get_hidden_weight.
  - now apply dict_get_hidden_bias.
Qed.

(** Loading a model's state dict into a model of the same architecture
    makes the second equal to the first ... *)
Lemma copy_params_state_dict m0 m :
  same_architecture m0 m -> copy_params (entries (named_layers m)) m0 = m.
Proof.
  intros [Hh Ho]. unfold copy_params.
  rewrite (copy_hidden_fits _ _ _ _ (holds_hidden_state_dict m) Hh).
  rewrite (copy_layer_fits _ "output" _ _ (dict_get_output_weight m)
             (dict_get_output_bias m) Ho).
  now destruct m.
Qed.

(** ... and reports nothing. *)
Lemma load_errors_state_dict m0 m :
  same_architecture m0 m -> load_errors (entries (named_layers m)) m0 = [].
Proof.
  intros [Hh Ho]. pose proof (Forall2_length _ _ _ Hh) as Hlen.
  pose proof (keys_state_dict _ _ Hlen) as Hkeys.
  unfold load_errors, missing_keys, unexpected_keys.
  rewrite !filter_none.
  - cbn [map app].
    pose proof (holds_hidden_state_dict m) as Hhid.
    pose proof (dict_get_output_weight m) as Hw.
    pose proof (dict_get_output_bias m) as Hb.
    set (kvs := entries (named_layers m)) in *.
    unfold state_dict, named_layers. rewrite flat_map_app, omap_app.
    rewrite (copy_error_hidden_fits _ _ _ _ Hhid Hh).
    cbn [flat_map app]. rewrite app_nil_r.
    apply (copy_error_fits _ "output" _ _ Hw Hb Ho).
  - rewrite keys_entries, Hkeys. apply Forall_forall. intros k Hk Hn. now apply Hn.
  - rewrite Hkeys. unfold state_dict. rewrite <- keys_entries. apply Forall_forall. intros k Hk Hn.
    now apply dict_get_None in Hn.
Qed.
End Loading.

(** ** What the constructor builds *)

Section Construction.
Context {R : Type}.
Implicit Types (ls : list (Linear R)) (m : Network R) (init : string -> Z -> R).

Lemma length_fill init name n : 0 <= n -> length (fill init name n) = Z.to_nat n.
Proof. intros Hn. unfold fill. now rewrite length_map, length_seqZ. Qed.

Lemma nn_Linear_ok init prefix i o : 0 < i -> 0 < o -> layer_ok (nn_Linear init prefix i o).
Proof.
  intros Hi Ho. unfold layer_ok, tensor_ok, numel. cbn [nn_Linear in_features out_features
    weight bias shape data foldr].
  repeat split; try assumption.
  - rewrite length_fill by nia. f_equal. lia.
  - rewrite length_fill by lia. f_equal. lia.
Qed.

Lemma same_layout_refl (l : Linear R) : same_layout l l.
Proof. now repeat split. Qed.

Lemma same_layout_nn_Linear init prefix (l : Linear R) :
  layer_ok l -> same_layout (nn_Linear init prefix (in_features l) (out_features l)) l.
Proof.
  intros (_ & _ & [Hw _] & [Hb _]). unfold same_layout.
  cbn [nn_Linear in_features out_features weight bias shape]. now rewrite Hw, Hb.
Qed.

(** The sizes of a well-chained list of layers are positive and rebuild a
    list of the same layout. *)
Lemma chain_of_chain_ok init k prev ls last_out :
  chain_ok prev ls last_out ->
  forallb (Z.ltb 0) (map out_features ls) = true /\
  Forall2 same_layout (chain init k prev (map out_features ls)) ls.
Proof.
  revert k prev. induction ls as [|l ls IH]; intros k prev Hc.
  - split; [reflexivity | constructor].
  - destruct Hc as (Hin & Hl & Hrest). destruct (IH (S k) _ Hrest) as [Hpos Hf].
    cbn [map forallb chain]. split.
    + rewrite Hpos. destruct Hl as (_ & Ho & _). apply Z.ltb_lt in Ho. now rewrite Ho.
    + constructor; [|exact Hf]. subst prev. now apply same_layout_nn_Linear.
Qed.

Lemma chain_ok_last prev ls last_out d :
  ls <> [] -> chain_ok prev ls last_out ->
  List.last (map out_features ls) d = last_out.
Proof.
  revert prev. induction ls as [|l ls IH]; intros prev Hne Hc; [congruence|].
  destruct Hc as (_ & _ & Hrest). destruct ls as [|l' ls].
  - simpl in *. exact Hrest.
  - change (List.last (map out_features (l :: l' :: ls)) d)
      with (List.last (map out_features (l' :: ls)) d).
    eapply IH; [discriminate | exact Hrest].
Qed.

(** Rebuilding a valid model from its own architecture fields succeeds and
    gives a model of the same architecture. *)
Lemma Network_init_of_valid init m :
  valid m ->
  exists m0, Network_init init (input_size m) (output_size m) (hidden_layer_sizes m) = Ok m0
             /\ same_architecture m0 m.
Proof.
  intros (Hne & Hc & Ho). unfold Network_init, hidden_layer_sizes.
  destruct (hidden_layers m) as [|l ls] eqn:Hls; [congruence|].
  destruct (chain_of_chain_ok init 0 _ _ _ Hc) as [Hpos Hf].
  pose proof (chain_ok_last _ _ _ (out_features l) Hne Hc) as Hlast.
  assert (Hi : Z.ltb 0 (input_size m) = true).
  { unfold input_size. rewrite Hls. destruct Hc as (_ & (Hi & _) & _). now apply Z.ltb_lt. }
  assert (Hoo : Z.ltb 0 (output_size m) = true).
  { destruct Ho as (_ & Hoo & _). now apply Z.ltb_lt. }
  cbn [map] in *. cbn [forallb]. cbn [forallb] in Hpos. rewrite Hi, Hoo, Hpos. cbn [andb].
  eexists. split; [reflexivity|]. split; cbn [hidden_layers output].
  - rewrite Hls. exact Hf.
  - rewrite Hlast. now apply same_layout_nn_Linear.
Qed.

Lemma last_default {A} (h : A) hs d d' : List.last (h :: hs) d = List.last (h :: hs) d'.
Proof.
  revert h. induction hs as [|a hs IH]; intros h; [reflexivity|].
  change (List.last (a :: hs) d = List.last (a :: hs) d'). apply IH.
Qed.

Lemma chain_valid init k prev hs :
  0 < prev -> forallb (Z.ltb 0) hs = true ->
  chain_ok prev (chain init k prev hs) (List.last hs prev) /\
  map out_features (chain init k prev hs) = hs.
Proof.
  revert k prev. induction hs as [|h hs IH]; intros k prev Hprev Hpos.
  - split; reflexivity.
  - cbn [forallb] in Hpos. apply andb_prop in Hpos as [Hh Hpos]. apply Z.ltb_lt in Hh.
    destruct (IH (S k) h Hh Hpos) as [Hc Hm]. cbn [chain chain_ok map]. split.
    + split; [reflexivity|]. split; [now apply nn_Linear_ok|].
      cbn [nn_Linear out_features]. destruct hs as [|z hs]; [exact Hc|].
      change (List.last (h :: z :: hs) prev) with (List.last (z :: hs) prev).
      rewrite (last_default z hs prev h). exact Hc.
    + cbn [nn_Linear out_features]. now rewrite Hm.
Qed.

Lemma forallb_last {A} (P : A -> bool) (h : A) hs d :
  forallb P (h :: hs) = true -> P (List.last (h :: hs) d) = true.
Proof.
  revert h. induction hs as [|a hs IH]; intros h H.
  - cbn in *. now apply andb_prop in H as [H _].
  - change (P (List.last (a :: hs) d) = true). apply IH.
    cbn [forallb] in H. now apply andb_prop in H as [_ H].
Qed.

(** What the constructor returns is a valid model with the architecture
    fields it was called with. *)
Lemma Network_init_valid init i o hs m :
  Network_init init i o hs = Ok m ->
  valid m /\ input_size m = i /\ output_size m = o /\ hidden_layer_sizes m = hs.
Proof.
  unfold Network_init. destruct hs as [|h hs]; [discriminate|].
  destruct (forallb _ _) eqn:Hpos; [|discriminate]. intros [= <-].
  cbn [forallb] in Hpos. apply andb_prop in Hpos as [Hi Hpos].
  apply andb_prop in Hpos as [Ho Hpos]. apply Z.ltb_lt in Hi, Ho.
  destruct (chain_valid init 0 i (h :: hs) Hi Hpos) as [Hc Hm].
  pose proof (forallb_last _ _ _ h Hpos) as Hh. apply Z.ltb_lt in Hh.
  rewrite (last_default h hs i h) in Hc.
  unfold valid, input_size, output_size, hidden_layer_sizes.
  cbn [hidden_layers output]. split; [|split; [reflexivity|split; [reflexivity|exact Hm]]].
  split; [discriminate|]. split.
  - exact Hc.
  - now apply nn_Linear_ok.
Qed.
End Construction.

(** ** Running the cells *)

Section Runs.
Context {R : Type}.
Implicit Types (m : Network R) (init : string -> Z -> R) (w : world R).

Lemma save_run w model m :
  heap w !! model = Some m ->
  save model w =
    (Ok tt, World (heap w) (<["checkpoint.pth" := Pickle (checkpoint m)]> (fs w))
                  (calls w ++ [CallTorchSave "checkpoint.pth"])).
Proof.
  intros Hm. unfold save, deref, torch_save, bind, log. rewrite Hm. reflexivity.
Qed.

Lemma as_ints_sizes (ls : list (Linear R)) :
  as_ints (map (fun each => PyInt (R:=R) (out_features each)) ls)
  = Ok (map out_features ls).
Proof. induction ls as [|l ls IH]; [reflexivity|]. cbn [map as_ints as_int]. now rewrite IH. Qed.

Lemma lookup_new_object (h : list (Network R)) m : (h ++ [m]) !! length h = Some m.
Proof. rewrite lookup_app_r by lia. now rewrite Nat.sub_diag. Qed.

Lemma insert_new_object (h : list (Network R)) m0 m :
  <[length h := m]> (h ++ [m0]) = h ++ [m].
Proof. rewrite insert_app_r_alt by lia. now rewrite Nat.sub_diag. Qed.

(** [load_checkpoint] on a file written by the saving cell: the calls it
    makes, the object it builds and what it returns. *)
Lemma load_checkpoint_run init filepath w m m0 :
  fs w !! filepath = Some (Pickle (checkpoint m)) ->
  Network_init init 784 10 (hidden_layer_sizes m) = Ok m0 ->
  load_checkpoint init filepath w =
    (match load_errors (entries (named_layers m)) m0 with
     | [] => Ok (length (heap w))
     | errs => Raise (RuntimeError errs)
     end,
     World (heap w ++ [copy_params (entries (named_layers m)) m0]) (fs w)
           (calls w ++ [CallTorchLoad filepath;
                        CallNetwork 784 10 (hidden_layer_sizes m);
                        CallLoadStateDict (length (heap w))])).
Proof.
  intros Hfs Hinit.
  unfold load_checkpoint, torch_load, bind, log, lift. cbn [fs heap calls]. rewrite Hfs.
  change (getitem (checkpoint m) "input_size") with (Ok (PyInt (R:=R) 784)).
  change (getitem (checkpoint m) "output_size") with (Ok (PyInt (R:=R) 10)).
  change (getitem (checkpoint m) "hidden_layers")
    with (Ok (PyList (map (fun each => PyInt (R:=R) (out_features each)) (hidden_layers m)))).
  change (getitem (checkpoint m) "state_dict") with (Ok (state_dict_obj m)).
  unfold fc_model_Network, alloc, bind, lift, log. cbn [as_int as_int_list fs heap calls].
  rewrite as_ints_sizes. fold (hidden_layer_sizes m). rewrite Hinit.
  unfold load_state_dict, deref, bind, log. cbn [fs heap calls].
  rewrite lookup_new_object, state_dict_obj_entries. cbn [fs heap calls].
  rewrite insert_new_object, <- !app_assoc.
  cbn [app]. destruct (load_errors _ _); reflexivity.
Qed.
End Runs.

(** ** Loading a state dict into a model of another architecture *)

Section Mismatch.
Context {R : Type}.
Implicit Types (ls : list (Linear R)) (m : Network R) (kvs : list (string * pyobj R)).

Lemma dict_get_elem_of {A} (d : list (string * A)) key v :
  dict_get d key = Some v -> (key, v) ∈ d.
Proof.
  induction d as [|[k x] d IH]; [discriminate|]. simpl.
  destruct (decide (k = key)) as [->|_].
  - intros [= ->]. apply list_elem_of_here.
  - intros H. apply list_elem_of_further, IH, H.
Qed.

Lemma entries_elem_of (nls : list (string * Linear R)) key (t : tensor R) :
  (key, PyTensor t) ∈ entries nls -> (key, t) ∈ flat_map layer_parameters nls.
Proof.
  unfold entries. rewrite list_elem_of_fmap. intros ([k t'] & [= -> ->] & Hin). exact Hin.
Qed.

Lemma hidden_bias_elem_of m j l :
  hidden_layers m !! j = Some l ->
  (hidden_name j +:+ ".bias", bias l) ∈ state_dict m.
Proof.
  intros Hj. apply entries_elem_of, dict_get_elem_of.
  apply (dict_get_hidden_bias _ _ 0 j l Hj).
Qed.

Lemma hidden_weight_key m j l :
  hidden_layers m !! j = Some l ->
  hidden_name j +:+ ".weight" ∈ map fst (state_dict m).
Proof.
  intros Hj. apply list_elem_of_fmap. exists (hidden_name j +:+ ".weight", weight l).
  split; [reflexivity|]. apply entries_elem_of, dict_get_elem_of.
  apply (dict_get_hidden_weight _ _ 0 j l Hj).
Qed.

Lemma dict_get_hidden_beyond ls (o : Linear R) k j :
  (k + length ls <= j)%nat ->
  dict_get (entries (named_hidden k ls ++ [("output", o)])) (hidden_name j +:+ ".weight")
  = None.
Proof.
  revert k. induction ls as [|l ls IH]; intros k Hj.
  - cbn [named_hidden app]. rewrite entries_cons. cbn [dict_get fst snd].
    rewrite !decide_False by (apply not_eq_sym, hidden_param_ne_output). reflexivity.
  - cbn [named_hidden length] in *. rewrite <- app_comm_cons, entries_cons.
    cbn [dict_get fst snd].
    rewrite decide_False by (intros E; apply hidden_weight_inj in E; lia).
    rewrite decide_False by (apply not_eq_sym, weight_ne_bias).
    apply IH. lia.
Qed.

Lemma hidden_weight_no_key m j :
  hidden_layers m !! j = None ->
  hidden_name j +:+ ".weight" ∉ map fst (state_dict m).
Proof.
  intros Hj. apply lookup_ge_None in Hj. unfold state_dict. rewrite <- keys_entries.
  apply dict_get_None. apply dict_get_hidden_beyond. simpl. exact Hj.
Qed.

Lemma lists_differ (l1 l2 : list Z) : l1 <> l2 -> exists j, l1 !! j <> l2 !! j.
Proof.
  revert l2. induction l1 as [|a l1 IH]; intros [|b l2] Hne.
  - congruence.
  - exists 0%nat. discriminate.
  - exists 0%nat. discriminate.
  - destruct (decide (a = b)) as [->|Hab].
    + destruct (IH l2) as [j Hj]; [congruence|]. now exists (S j).
    + exists 0%nat. simpl. congruence.
Qed.

(** A model whose hidden sizes differ from those of the model a state dict
    comes from cannot load it: some message is reported. *)
Lemma load_errors_mismatch m' m :
  Forall layer_ok (hidden_layers m') -> Forall layer_ok (hidden_layers m) ->
  hidden_layer_sizes m' <> hidden_layer_sizes m ->
  load_errors (entries (named_layers m)) m' <> [].
Proof.
  intros Hok' Hok Hne.
  assert (Hex : exists j, hidden_layer_sizes m' !! j <> hidden_layer_sizes m !! j)
    by now apply lists_differ.
  destruct Hex as [j Hj]. unfold hidden_layer_sizes in Hj. rewrite !list_lookup_fmap in Hj.
  assert (Hin : exists err, err ∈ load_errors (entries (named_layers m)) m');
    [|destruct Hin as [err Hin]; intros E; rewrite E in Hin; now apply elem_of_nil in Hin].
  unfold load_errors.
  destruct (hidden_layers m' !! j) as [l'|] eqn:Hl', (hidden_layers m !! j) as [l|] eqn:Hl;
    cbn in Hj.
  - (* both layers exist, with different sizes: the bias does not fit *)
    exists (SizeMismatch (hidden_name j +:+ ".bias") (shape (bias l')) (shape (bias l))).
    rewrite !elem_of_app. right. right. apply list_elem_of_omap.
    exists (hidden_name j +:+ ".bias", bias l'). split; [now apply hidden_bias_elem_of|].
    unfold copy_error. cbn [fst snd].
    pose proof (dict_get_hidden_bias _ [("output", output m)] 0 j l Hl) as Hget.
    change (dict_get (entries (named_layers m)) (hidden_name j +:+ ".bias")
            = Some (PyTensor (bias l))) in Hget.
    rewrite Hget.
    rewrite decide_False; [reflexivity|].
    apply (Forall_lookup_1 _ _ _ _ Hok') in Hl' as (_ & _ & _ & [Hb' _]).
    apply (Forall_lookup_1 _ _ _ _ Hok) in Hl as (_ & _ & _ & [Hb _]).
    rewrite Hb, Hb'. intros [= E]. apply Hj. now rewrite E.
  - (* the model has a layer the state dict lacks *)
    exists (MissingKey (hidden_name j +:+ ".weight")).
    rewrite !elem_of_app. left. apply list_elem_of_fmap. eexists. split; [reflexivity|].
    unfold missing_keys. apply list_elem_of_filter. split.
    + apply dict_get_None. rewrite keys_entries. now apply hidden_weight_no_key.
    + eapply hidden_weight_key, Hl'.
  - (* the state dict has a layer the model lacks *)
    exists (UnexpectedKey (hidden_name j +:+ ".weight")).
    rewrite !elem_of_app. right. left. apply list_elem_of_fmap. eexists. split; [reflexivity|].
    unfold unexpected_keys. apply list_elem_of_filter. split.
    + now apply hidden_weight_no_key.
    + rewrite keys_entries. eapply hidden_weight_key, Hl.
  - now destruct Hj.
Qed.

Lemma chain_ok_layers prev ls last_out : chain_ok prev ls last_out -> Forall layer_ok ls.
Proof.
  revert prev. induction ls as [|l ls IH]; intros prev Hc; [constructor|].
  destruct Hc as (_ & Hl & Hrest). constructor; [exact Hl | eapply IH, Hrest].
Qed.

Lemma valid_layers m : valid m -> Forall layer_ok (hidden_layers m).
Proof. intros (_ & Hc & _). eapply chain_ok_layers, Hc. Qed.
End Mismatch.

(** ** The round trip through a checkpoint file *)

Section RoundTrip.
Context {R : Type}.
Implicit Types (m : Network R) (init : string -> Z -> R) (w : world R).

(** Saving a valid 784-to-10 model and loading the file back: the state
    reached and the reference returned. *)
Lemma roundtrip_run init w model m :
  heap w !! model = Some m -> valid m -> input_size m = 784 -> output_size m = 10 ->
  load_checkpoint init "checkpoint.pth" (snd (save model w)) =
    (Ok (length (heap w)),
     World (heap w ++ [m])
           (<["checkpoint.pth" := Pickle (checkpoint m)]> (fs w))
           ((calls w ++ [CallTorchSave "checkpoint.pth"])
            ++ [CallTorchLoad "checkpoint.pth";
                CallNetwork 784 10 (hidden_layer_sizes m);
                CallLoadStateDict (length (heap w))])).
Proof.
  intros Hm Hv Hi Ho. rewrite (save_run _ _ _ Hm). cbn [snd].
  destruct (Network_init_of_valid init m Hv) as (m0 & Hinit & Harch).
  rewrite Hi, Ho in Hinit.
  erewrite load_checkpoint_run; [|apply lookup_insert_eq|exact Hinit].
  rewrite (copy_params_state_dict _ _ Harch), (load_errors_state_dict _ _ Harch).
  reflexivity.
Qed.

(** C1 (as amended): for every valid model whose input size is 784 and
    whose output size is 10, loading the checkpoint that the saving cell
    writes returns a new model with the same architecture fields and the
    same parameter values, whose forward computation agrees on every
    input; the saved model is still there, unchanged. *)
Theorem roundtrip_784_10 init w model m :
  heap w !! model = Some m -> valid m ->
  input_size m = 784 -> output_size m = 10 ->
  exists w1 w2 model' m',
    save model w = (Ok tt, w1) /\
    load_checkpoint init "checkpoint.pth" w1 = (Ok model', w2) /\
    model' <> model /\
    heap w2 !! model = Some m /\
    heap w2 !! model' = Some m' /\
    input_size m' = input_size m /\
    output_size m' = output_size m /\
    hidden_layer_sizes m' = hidden_layer_sizes m /\
    state_dict m' = state_dict m /\
    forall zero add mul relu dropout log_softmax x,
      forward zero add mul relu dropout log_softmax m' x
      = forward zero add mul relu dropout log_softmax m x.
Proof.
  intros Hm Hv Hi Ho.
  pose proof (roundtrip_run init w model m Hm Hv Hi Ho) as Hrun.
  rewrite (save_run _ _ _ Hm) in Hrun. cbn [snd] in Hrun.
  eexists _, _, (length (heap w)), m.
  split; [apply (save_run _ _ _ Hm)|]. split; [exact Hrun|]. cbn [heap].
  pose proof (lookup_lt_Some _ _ _ Hm) as Hlt.
  split; [lia|]. split; [now rewrite lookup_app_l|].
  split; [apply lookup_new_object|]. repeat split; reflexivity.
Qed.
End RoundTrip.

(** C1, witness: the round trip of [fc_model.Network(784, 10, [2])]. *)
Lemma roundtrip_784_10_witness :
  exists w1 w2 model' m',
    save 0%nat (example_world [example_model 784 10 2]) = (Ok tt, w1) /\
    load_checkpoint ramp "checkpoint.pth" w1 = (Ok model', w2) /\
    model' <> 0%nat /\
    heap w2 !! 0%nat = Some (example_model 784 10 2) /\
    heap w2 !! model' = Some m' /\
    input_size m' = input_size (example_model 784 10 2) /\
    output_size m' = output_size (example_model 784 10 2) /\
    hidden_layer_sizes m' = hidden_layer_sizes (example_model 784 10 2) /\
    state_dict m' = state_dict (example_model 784 10 2) /\
    forall zero add mul relu dropout log_softmax x,
      forward zero add mul relu dropout log_softmax m' x
      = forward zero add mul relu dropout log_softmax (example_model 784 10 2) x.
Proof.
  apply (roundtrip_784_10 ramp (example_world [example_model 784 10 2]) 0%nat
           (example_model 784 10 2)).
  - reflexivity.
  - repeat split; try discriminate; vm_compute; reflexivity.
  - reflexivity.
  - reflexivity.
Defined.

(** C1, counterexample: [fc_model.Network(3, 2, [4])] is a valid model, yet
    loading its checkpoint raises: the file says 784 and 10. *)
Lemma roundtrip_fails_off_784 :
  valid (example_model 3 2 4) /\
  fst (load_checkpoint ramp "checkpoint.pth"
         (snd (save 0%nat (example_world [example_model 3 2 4]))))
  = Raise (RuntimeError
             [SizeMismatch "hidden_layers.0.weight" [4; 784] [4; 3];
              SizeMismatch "output.weight" [10; 4] [2; 4];
              SizeMismatch "output.bias" [10] [2]]).
Proof.
  split.
  - repeat split; try discriminate; vm_compute; reflexivity.
  - vm_compute. reflexivity.
Qed.

(** ** The descriptor-driven path of [load_checkpoint] *)

Section DescriptorPath.
Context {R : Type}.
Implicit Types (m : Network R) (init : string -> Z -> R) (w : world R).

Lemma Network_init_total init i o hs :
  0 < i -> 0 < o -> hs <> [] -> forallb (Z.ltb 0) hs = true ->
  exists m0, Network_init init i o hs = Ok m0.
Proof.
  intros Hi Ho Hne Hpos. unfold Network_init. destruct hs as [|h hs]; [congruence|].
  apply Z.ltb_lt in Hi, Ho. cbn [forallb] in *. rewrite Hi, Ho, Hpos. cbn [andb]. eauto.
Qed.

(** The hidden sizes of a valid model build a network behind any positive
    input and output size. *)
Lemma Network_init_sizes init i o m :
  valid m -> 0 < i -> 0 < o ->
  exists m0, Network_init init i o (hidden_layer_sizes m) = Ok m0.
Proof.
  intros (Hne & Hc & _) Hi Ho. apply Network_init_total; try assumption.
  - unfold hidden_layer_sizes. destruct (hidden_layers m); [congruence | discriminate].
  - apply (chain_of_chain_ok init 0 _ _ _ Hc).
Qed.

Lemma fc_model_Network_run init i o (xs : list (pyobj R)) hs m0 w :
  as_ints xs = Ok hs -> Network_init init i o hs = Ok m0 ->
  fc_model_Network init (PyInt i) (PyInt o) (PyList xs) w =
    (Ok (length (heap w)),
     World (heap w ++ [m0]) (fs w) (calls w ++ [CallNetwork i o hs])).
Proof.
  intros Hxs Hinit. unfold fc_model_Network, alloc, bind, lift, log.
  cbn [as_int as_int_list fs heap calls]. now rewrite Hxs, Hinit.
Qed.

(** C8 (as amended): for every checkpoint that the saving cell writes for
    a valid model with input size 784 and output size 10,
    [load_checkpoint] returns a model: it raises nothing, a
    StructureMismatch in particular. *)
Theorem descriptor_path_no_mismatch init w model m :
  heap w !! model = Some m -> valid m ->
  input_size m = 784 -> output_size m = 10 ->
  fst (load_checkpoint init "checkpoint.pth" (snd (save model w))) = Ok (length (heap w))
  /\ forall e, fst (load_checkpoint init "checkpoint.pth" (snd (save model w))) = Raise e ->
               StructureMismatch e = false.
Proof.
  intros Hm Hv Hi Ho. rewrite (roundtrip_run init w model m Hm Hv Hi Ho). cbn [fst].
  split; [reflexivity | discriminate].
Qed.

(** C5 (as amended): on the file that the saving cell writes for a valid
    model, [load_checkpoint] calls [torch.load], then [fc_model.Network]
    with the stored descriptor fields, then [load_state_dict] on the
    object just built, which ends up holding that object with the stored
    entries copied in; when the model's input and output sizes are 784 and
    10 it returns that object, equal to the saved model. *)
Theorem load_steps init w model m :
  heap w !! model = Some m -> valid m ->
  exists r w1 w2 m0,
    save model w = (Ok tt, w1) /\
    load_checkpoint init "checkpoint.pth" w1 = (r, w2) /\
    calls w2 = calls w1 ++ [CallTorchLoad "checkpoint.pth";
                            CallNetwork 784 10 (hidden_layer_sizes m);
                            CallLoadStateDict (length (heap w))] /\
    Network_init init 784 10 (hidden_layer_sizes m) = Ok m0 /\
    heap w2 !! length (heap w) = Some (copy_params (entries (named_layers m)) m0) /\
    (input_size m = 784 -> output_size m = 10 ->
     r = Ok (length (heap w)) /\ heap w2 !! length (heap w) = Some m).
Proof.
  intros Hm Hv.
  destruct (Network_init_sizes init 784 10 m Hv) as [m0 Hinit]; [lia | lia |].
  eexists _, _, _, m0. split; [apply (save_run _ _ _ Hm)|].
  split; [apply load_checkpoint_run; [apply lookup_insert_eq | exact Hinit]|].
  cbn [calls heap]. split; [reflexivity|]. split; [exact Hinit|].
  split; [apply lookup_new_object|]. intros Hi Ho.
  destruct (Network_init_of_valid init m Hv) as (m0' & Hinit' & Harch).
  rewrite Hi, Ho, Hinit in Hinit'. injection Hinit' as <-.
  rewrite (load_errors_state_dict _ _ Harch), (copy_params_state_dict _ _ Harch).
  split; [reflexivity | apply lookup_new_object].
Qed.

(** C7: a model built by [fc_model.Network(784, 10, [512, 256, 128])] is
    saved; loading the file back, in the same kernel or in any other that
    holds the file, and whatever the constructor draws, returns a new
    object, a model with the descriptor fields [(784, 10, [512, 256, 128])]
    whose first hidden layer has a weight of shape [(512, 784)], stored as
    ['hidden_layers.0.weight'], and whose parameters are those of the saved
    model. *)
Theorem example_scenario init w :
  exists model w1 w2 m,
    fc_model_Network init (PyInt 784) (PyInt 10)
      (PyList [PyInt 512; PyInt 256; PyInt 128]) w = (Ok model, w1) /\
    heap w1 !! model = Some m /\
    save model w1 = (Ok tt, w2) /\
    heap w2 !! model = Some m /\
    forall init' w',
      fs w' !! "checkpoint.pth" = fs w2 !! "checkpoint.pth" ->
      exists model' w3 m' l,
        load_checkpoint init' "checkpoint.pth" w' = (Ok model', w3) /\
        heap w' !! model' = None /\
        heap w3 = heap w' ++ [m'] /\
        heap w3 !! model' = Some m' /\
        input_size m' = 784 /\ output_size m' = 10 /\
        hidden_layer_sizes m' = [512; 256; 128] /\
        hidden_layers m' !! 0%nat = Some l /\ shape (weight l) = [512; 784] /\
        dict_get (state_dict m') "hidden_layers.0.weight" = Some (weight l) /\
        state_dict m' = state_dict m.
Proof.
  destruct (Network_init_total init 784 10 [512; 256; 128]) as [m Hinit];
    [lia | lia | discriminate | reflexivity |].
  destruct (Network_init_valid _ _ _ _ _ Hinit) as (Hv & Hi & Ho & Hh).
  pose proof (fc_model_Network_run init 784 10
                [PyInt 512; PyInt 256; PyInt 128] _ m w eq_refl Hinit) as Hnew.
  set (w1 := World (heap w ++ [m]) (fs w) (calls w ++ [CallNetwork 784 10 [512; 256; 128]]))
    in Hnew.
  assert (Hm : heap w1 !! length (heap w) = Some m) by apply lookup_new_object.
  eexists _, _, _, m. split; [exact Hnew|]. split; [exact Hm|].
  split; [apply (save_run _ _ _ Hm)|]. cbn [heap fs]. split; [exact Hm|].
  intros init' w' Hfs. rewrite lookup_insert_eq in Hfs.
  destruct (Network_init_of_valid init' m Hv) as (m0 & Hinit' & Harch).
  rewrite Hi, Ho in Hinit'.
  pose proof (load_checkpoint_run init' "checkpoint.pth" w' m m0 Hfs Hinit') as Hrun.
  rewrite (copy_params_state_dict _ _ Harch), (load_errors_state_dict _ _ Harch) in Hrun.
  assert (Hfirst : exists l, hidden_layers m !! 0%nat = Some l /\
                     shape (weight l) = [512; 784] /\
                     dict_get (state_dict m) "hidden_layers.0.weight" = Some (weight l)).
  { clear -Hinit. unfold Network_init in Hinit.
    cbn [forallb Z.ltb Z.compare andb] in Hinit. injection Hinit as <-.
    eexists. split; [reflexivity|]. split; [reflexivity|].
    unfold state_dict, named_layers.
    cbn [hidden_layers output chain named_hidden app flat_map layer_parameters fst snd
         dict_get].
    rewrite decide_True by (vm_compute; reflexivity). reflexivity. }
  destruct Hfirst as (l & Hl & Hshape & Hkey).
  eexists _, _, m, l. split; [exact Hrun|]. cbn [heap].
  split; [apply lookup_ge_None; lia|]. split; [reflexivity|].
  split; [apply lookup_new_object|]. repeat split; assumption.
Qed.
End DescriptorPath.

(** C8, witness: [fc_model.Network(784, 10, [2])]. *)
Lemma descriptor_path_no_mismatch_witness :
  fst (load_checkpoint ramp "checkpoint.pth"
         (snd (save 0%nat (example_world [example_model 784 10 2])))) = Ok 1%nat
  /\ forall e,
       fst (load_checkpoint ramp "checkpoint.pth"
              (snd (save 0%nat (example_world [example_model 784 10 2])))) = Raise e ->
       StructureMismatch e = false.
Proof.
  apply (descriptor_path_no_mismatch ramp (example_world [example_model 784 10 2]) 0%nat
           (example_model 784 10 2)).
  - reflexivity.
  - repeat split; try discriminate; vm_compute; reflexivity.
  - reflexivity.
  - reflexivity.
Defined.

(** C8, counterexample: the checkpoint that the saving cell writes for
    [fc_model.Network(3, 2, [4])] makes [load_checkpoint] raise a
    StructureMismatch. *)
Lemma descriptor_path_mismatch_off_784 :
  valid (example_model 3 2 4) /\
  exists e,
    fst (load_checkpoint ramp "checkpoint.pth"
           (snd (save 0%nat (example_world [example_model 3 2 4])))) = Raise e
    /\ StructureMismatch e = true.
Proof.
  split.
  - repeat split; try discriminate; vm_compute; reflexivity.
  - eexists. split; vm_compute; reflexivity.
Qed.

(** C5, witness: the steps of loading the checkpoint of
    [fc_model.Network(784, 10, [2])]. *)
Lemma load_steps_witness :
  exists r w1 w2 m0,
    save 0%nat (example_world [example_model 784 10 2]) = (Ok tt, w1) /\
    load_checkpoint ramp "checkpoint.pth" w1 = (r, w2) /\
    calls w2 = calls w1 ++ [CallTorchLoad "checkpoint.pth";
                            CallNetwork 784 10 (hidden_layer_sizes (example_model 784 10 2));
                            CallLoadStateDict 1%nat] /\
    Network_init ramp 784 10 (hidden_layer_sizes (example_model 784 10 2)) = Ok m0 /\
    heap w2 !! 1%nat
      = Some (copy_params (entries (named_layers (example_model 784 10 2))) m0) /\
    (input_size (example_model 784 10 2) = 784 -> output_size (example_model 784 10 2) = 10 ->
     r = Ok 1%nat /\ heap w2 !! 1%nat = Some (example_model 784 10 2)).
Proof.
  apply (load_steps ramp (example_world [example_model 784 10 2]) 0%nat (example_model 784 10 2)).
  - reflexivity.
  - repeat split; try discriminate; vm_compute; reflexivity.
Defined.

(** C5, counterexample: on the file that the saving cell writes for
    [fc_model.Network(3, 2, [4])], [load_checkpoint] makes its three calls
    and then returns no model. *)
Lemma load_returns_nothing_off_784 :
  valid (example_model 3 2 4) /\
  calls (snd (load_checkpoint ramp "checkpoint.pth"
                (snd (save 0%nat (example_world [example_model 3 2 4])))))
  = [CallTorchSave "checkpoint.pth"; CallTorchLoad "checkpoint.pth";
     CallNetwork 784 10 [4]; CallLoadStateDict 1%nat] /\
  ~ exists model' w2,
      load_checkpoint ramp "checkpoint.pth"
        (snd (save 0%nat (example_world [example_model 3 2 4]))) = (Ok model', w2).
Proof.
  split; [|split].
  - repeat split; try discriminate; vm_compute; reflexivity.
  - vm_compute. reflexivity.
  - intros (model' & w2 & H). apply (f_equal fst) in H. vm_compute in H. discriminate H.
Qed.

(** ** Loading into a hand-built model *)

Section HandBuilt.
Context {R : Type}.
Implicit Types (m : Network R) (init : string -> Z -> R) (w : world R).

Lemma as_ints_PyInt (hs : list Z) : as_ints (map (PyInt (R:=R)) hs) = Ok hs.
Proof. induction hs as [|h hs IH]; [reflexivity|]. cbn [map as_ints as_int]. now rewrite IH. Qed.

(** A call of the constructor that returns has built a model for the
    sizes it was given and put it in a new object. *)
Lemma fc_model_Network_returns init i o hs w model w1 :
  fc_model_Network init (PyInt i) (PyInt o) (PyList (map PyInt hs)) w = (Ok model, w1) ->
  exists m0, Network_init init i o hs = Ok m0 /\ model = length (heap w) /\
             w1 = World (heap w ++ [m0]) (fs w) (calls w ++ [CallNetwork i o hs]).
Proof.
  unfold fc_model_Network, alloc, bind, lift, log. cbn [as_int as_int_list fs heap calls].
  rewrite as_ints_PyInt. destruct (Network_init init i o hs) as [m0|e]; [|discriminate].
  intros [= <- <-]. eauto.
Qed.

Lemma load_state_dict_run w model m0 (kvs : list (string * pyobj R)) :
  heap w !! model = Some m0 ->
  load_state_dict model (PyDict kvs) w =
    (match load_errors kvs m0 with
     | [] => Ok tt
     | errs => Raise (RuntimeError errs)
     end,
     World (<[model := copy_params kvs m0]> (heap w)) (fs w)
           (calls w ++ [CallLoadStateDict model])).
Proof.
  intros Hm. unfold load_state_dict, deref, bind, log. cbn [fs heap calls]. rewrite Hm.
  destruct (load_errors kvs m0); reflexivity.
Qed.

(** C2: whatever valid model a state dict comes from, a model constructed
    with another sequence of hidden sizes cannot load it:
    [load_state_dict] raises the [RuntimeError] that is the
    StructureMismatch. *)
Theorem shape_mismatch_detected init w w1 model' i o hs' m :
  valid m ->
  fc_model_Network init (PyInt i) (PyInt o) (PyList (map PyInt hs')) w = (Ok model', w1) ->
  hs' <> hidden_layer_sizes m ->
  exists msgs w2,
    load_state_dict model' (state_dict_obj m) w1 = (Raise (RuntimeError msgs), w2) /\
    StructureMismatch (RuntimeError msgs) = true.
Proof.
  intros Hv Hnew Hne.
  apply fc_model_Network_returns in Hnew as (m' & Hinit & -> & ->).
  destruct (Network_init_valid _ _ _ _ _ Hinit) as (Hv' & _ & _ & Hh').
  rewrite state_dict_obj_entries.
  rewrite (load_state_dict_run _ _ m') by apply lookup_new_object.
  pose proof (load_errors_mismatch m' m (valid_layers _ Hv') (valid_layers _ Hv)) as Herr.
  rewrite Hh' in Herr. specialize (Herr Hne).
  destruct (load_errors (entries (named_layers m)) m') as [|msg msgs]; [congruence|].
  eexists _, _. split; reflexivity.
Qed.
End HandBuilt.

(** C2, witness: the state dict of [fc_model.Network(3, 2, [4])] and a model
    built by [fc_model.Network(3, 2, [5])]. *)
Lemma shape_mismatch_detected_witness :
  exists msgs w2,
    load_state_dict 1%nat (state_dict_obj (example_model 3 2 4))
      (snd (fc_model_Network ramp (PyInt 3) (PyInt 2) (PyList (map PyInt [5]))
              (example_world [example_model 3 2 4])))
    = (Raise (RuntimeError msgs), w2) /\
    StructureMismatch (RuntimeError msgs) = true.
Proof.
  apply (shape_mismatch_detected ramp (example_world [example_model 3 2 4]) _ 1%nat 3 2 [5]
           (example_model 3 2 4)).
  - repeat split; try discriminate; vm_compute; reflexivity.
  - vm_compute. reflexivity.
  - vm_compute. discriminate.
Defined.

(** The cell that loads the state dict of [fc_model.Network(784, 10, [512,
    256, 128])] into [fc_model.Network(784, 10, [400, 200, 100])]: the
    messages are the ones the notebook records, parameter by parameter. *)
Example notebook_mismatch_messages :
  forall m m',
    Network_init ramp 784 10 [512; 256; 128] = Ok m ->
    Network_init ramp 784 10 [400; 200; 100] = Ok m' ->
    load_errors (entries (named_layers m)) m'
    = [SizeMismatch "hidden_layers.0.weight" [400; 784] [512; 784];
       SizeMismatch "hidden_layers.0.bias" [400] [512];
       SizeMismatch "hidden_layers.1.weight" [200; 400] [256; 512];
       SizeMismatch "hidden_layers.1.bias" [200] [256];
       SizeMismatch "hidden_layers.2.weight" [100; 200] [128; 256];
       SizeMismatch "hidden_layers.2.bias" [100] [128];
       SizeMismatch "output.weight" [10; 100] [10; 128]].
Proof.
  intros m m' Hm Hm'. unfold Network_init in Hm, Hm'.
  cbn [forallb Z.ltb Z.compare andb] in Hm, Hm'.
  injection Hm as <-. injection Hm' as <-.
  cbv -[fill]. reflexivity.
Qed.

(** ** What saving and loading do to the kernel and to the files *)

Section Frame.
Context {R : Type}.
Implicit Types (m : Network R) (init : string -> Z -> R) (w : world R).

(** C10: the saving cell leaves every object of the kernel, the saved
    model among them, as it was; of the files only the destination
    changes. *)
Theorem save_frame w model :
  (forall obj, heap (snd (save model w)) !! obj = heap w !! obj) /\
  (forall path, path <> "checkpoint.pth" ->
                fs (snd (save model w)) !! path = fs w !! path).
Proof.
  unfold save, deref, torch_save, bind, log. destruct (heap w !! model) as [m|].
  - cbn [snd heap fs]. split; [reflexivity|]. intros path Hp.
    apply lookup_insert_ne. congruence.
  - cbn [snd]. split; reflexivity.
Qed.

Lemma bind_fs {A B} (c : py R A) (k : A -> py R B) w :
  (forall w0, fs (snd (c w0)) = fs w0) ->
  (forall a w0, fs (snd (k a w0)) = fs w0) ->
  fs (snd (bind c k w)) = fs w.
Proof.
  intros Hc Hk. unfold bind. specialize (Hc w). destruct (c w) as [[a|e] w0]; cbn [snd] in *.
  - now rewrite Hk.
  - exact Hc.
Qed.

Lemma lift_fs {A} (r : result A) w : fs (snd (lift (R:=R) r w)) = fs w.
Proof. reflexivity. Qed.

Lemma torch_load_fs path w : fs (snd (torch_load (R:=R) path w)) = fs w.
Proof.
  unfold torch_load, bind, log. cbn [fs].
  destruct (fs w !! path) as [[v|b failure]|]; reflexivity.
Qed.

Lemma fc_model_Network_fs init (a b c : pyobj R) w :
  fs (snd (fc_model_Network init a b c w)) = fs w.
Proof.
  unfold fc_model_Network, alloc, bind, lift, log.
  destruct (as_int a); [|reflexivity]. destruct (as_int b); [|reflexivity].
  destruct (as_int_list c); [|reflexivity]. destruct (Network_init _ _ _ _); reflexivity.
Qed.

Lemma load_state_dict_fs model (sd : pyobj R) w :
  fs (snd (load_state_dict model sd w)) = fs w.
Proof.
  unfold load_state_dict, deref, bind, log, raise. cbn [heap].
  destruct (heap w !! model); [|reflexivity].
  destruct sd; try reflexivity. destruct (load_errors _ _); reflexivity.
Qed.

(** C9 (as amended): [load_checkpoint] never changes a file; the saving
    cell changes the destination only, whose contents it replaces as a
    whole by the new checkpoint, whatever the file held before. *)
Theorem checkpoint_file_lifecycle init w model path :
  fs (snd (load_checkpoint init path w)) = fs w /\
  fs (snd (save model w)) =
    match heap w !! model with
    | Some m => <["checkpoint.pth" := Pickle (checkpoint m)]> (fs w)
    | None => fs w
    end.
Proof.
  split.
  - unfold load_checkpoint.
    apply bind_fs; [apply torch_load_fs|]. intros checkpoint w0.
    apply bind_fs; [apply lift_fs|]. intros a w1.
    apply bind_fs; [apply lift_fs|]. intros b w2.
    apply bind_fs; [apply lift_fs|]. intros c w3.
    apply bind_fs; [apply fc_model_Network_fs|]. intros model0 w4.
    apply bind_fs; [apply lift_fs|]. intros sd w5.
    apply bind_fs; [apply load_state_dict_fs|]. reflexivity.
  - unfold save, deref, torch_save, bind, log. destruct (heap w !! model); reflexivity.
Qed.
End Frame.

(** C9, counterexample: running the saving cell for a second model
    overwrites the checkpoint written for the first. *)
Lemma second_save_overwrites :
  let w0 := example_world [example_model 784 10 1; example_model 784 10 2] in
  let w1 := snd (save 0%nat w0) in
  let w2 := snd (save 1%nat w1) in
  fs w1 !! "checkpoint.pth" = Some (Pickle (checkpoint (example_model 784 10 1))) /\
  fs w2 !! "checkpoint.pth" = Some (Pickle (checkpoint (example_model 784 10 2))) /\
  fs w2 !! "checkpoint.pth" <> fs w1 !! "checkpoint.pth".
Proof.
  cbv zeta. split; [|split].
  - vm_compute. reflexivity.
  - vm_compute. reflexivity.
  - intros H. vm_compute in H. discriminate H.
Qed.

(** ** What the saving cell writes *)

Section Saved.
Context {R : Type}.
Implicit Types (ls : list (Linear R)) (m : Network R) (init : string -> Z -> R)
  (w : world R) (kvs : list (string * pyobj R)).

Lemma saved_file w model m :
  heap w !! model = Some m ->
  fs (snd (save model w)) !! "checkpoint.pth" = Some (Pickle (checkpoint m)).
Proof. intros Hm. rewrite (save_run _ _ _ Hm). apply lookup_insert_eq. Qed.

Lemma checkpoint_hidden_layers m :
  getitem (checkpoint m) "hidden_layers" = Ok (PyList (map PyInt (hidden_layer_sizes m))).
Proof.
  unfold hidden_layer_sizes. rewrite map_map. reflexivity.
Qed.

Lemma dims_chain_hidden kvs k prev ls last_out tail o :
  holds_hidden kvs k ls -> chain_ok prev ls last_out ->
  dims_chain last_out tail o ->
  dims_chain prev
    (map (fun j => shape_at kvs (hidden_name j +:+ ".weight")) (seq k (length ls)) ++ tail) o.
Proof.
  revert k prev. induction ls as [|l ls IH]; intros k prev Hh Hc Ht.
  - cbn in *. now subst.
  - destruct Hc as (Hin & (_ & _ & [Hw _] & _) & Hrest).
    destruct (Hh 0%nat l eq_refl) as [Hget _]. rewrite Nat.add_0_r in Hget.
    cbn [length seq map app dims_chain]. unfold shape_at at 1. rewrite Hget, Hw.
    split; [exact Hin|]. apply IH; [eapply holds_hidden_tail, Hh | exact Hrest | exact Ht].
Qed.

(** The weight matrices of a valid model's state dict chain from its input
    size to its output size. *)
Lemma dims_chain_state_dict m :
  valid m ->
  dims_chain (input_size m)
    (weight_shapes (entries (named_layers m)) (length (hidden_layers m)))
    (output_size m).
Proof.
  intros (_ & Hc & (_ & _ & [Hw _] & _)). unfold weight_shapes.
  eapply dims_chain_hidden; [apply holds_hidden_state_dict | exact Hc |].
  unfold shape_at. rewrite dict_get_output_weight, Hw. cbn. split; reflexivity.
Qed.

(** C6 (as amended): in every checkpoint that the saving cell writes for a
    valid model, each weight matrix has as many columns as the one before
    has rows, the first has as many columns as the model has inputs and
    the last as many rows as the model has outputs; these are the stored
    [input_size] and [output_size] when the model's are 784 and 10. *)
Theorem saved_dimension_chain w model m :
  heap w !! model = Some m -> valid m ->
  exists c kvs,
    fs (snd (save model w)) !! "checkpoint.pth" = Some (Pickle c) /\
    getitem c "hidden_layers" = Ok (PyList (map PyInt (hidden_layer_sizes m))) /\
    getitem c "state_dict" = Ok (PyDict kvs) /\
    dims_chain (input_size m) (weight_shapes kvs (length (hidden_layer_sizes m)))
      (output_size m) /\
    (input_size m = 784 -> output_size m = 10 ->
     getitem c "input_size" = Ok (PyInt (input_size m)) /\
     getitem c "output_size" = Ok (PyInt (output_size m))).
Proof.
  intros Hm Hv. exists (checkpoint m), (entries (named_layers m)).
  split; [now apply saved_file|]. split; [apply checkpoint_hidden_layers|].
  split; [reflexivity|]. split.
  - unfold hidden_layer_sizes. rewrite length_map. now apply dims_chain_state_dict.
  - intros -> ->. split; reflexivity.
Qed.

(** C4 (as amended): the file that the saving cell writes for a valid
    model holds the model's hidden layer sizes, every parameter of the
    model under its name, and 784 and 10 as input and output size; when
    these are the model's input and output sizes, [load_checkpoint]
    rebuilds from the file alone, in any kernel, a model with the saved
    model's architecture fields and parameters. *)
Theorem save_sufficient init w model m :
  heap w !! model = Some m -> valid m ->
  exists c,
    fs (snd (save model w)) !! "checkpoint.pth" = Some (Pickle c) /\
    getitem c "input_size" = Ok (PyInt 784) /\
    getitem c "output_size" = Ok (PyInt 10) /\
    getitem c "hidden_layers" = Ok (PyList (map PyInt (hidden_layer_sizes m))) /\
    getitem c "state_dict"
      = Ok (PyDict (map (fun kt => (fst kt, PyTensor (snd kt))) (state_dict m))) /\
    (input_size m = 784 -> output_size m = 10 ->
     forall w' path, fs w' !! path = Some (Pickle c) ->
       exists model' w'' m',
         load_checkpoint init path w' = (Ok model', w'') /\
         heap w'' !! model' = Some m' /\
         input_size m' = input_size m /\
         output_size m' = output_size m /\
         hidden_layer_sizes m' = hidden_layer_sizes m /\
         state_dict m' = state_dict m).
Proof.
  intros Hm Hv. exists (checkpoint m).
  split; [now apply saved_file|]. split; [reflexivity|]. split; [reflexivity|].
  split; [apply checkpoint_hidden_layers|]. split; [reflexivity|].
  intros Hi Ho w' path Hfs.
  destruct (Network_init_of_valid init m Hv) as (m0 & Hinit & Harch).
  rewrite Hi, Ho in Hinit.
  pose proof (load_checkpoint_run init path w' m m0 Hfs Hinit) as Hrun.
  rewrite (copy_params_state_dict _ _ Harch), (load_errors_state_dict _ _ Harch) in Hrun.
  eexists _, _, m. split; [exact Hrun|]. cbn [heap].
  split; [apply lookup_new_object|]. repeat split; reflexivity.
Qed.
End Saved.

(** C6, witness: the checkpoint of [fc_model.Network(784, 10, [2])]. *)
Lemma saved_dimension_chain_witness :
  exists c kvs,
    fs (snd (save 0%nat (example_world [example_model 784 10 2]))) !! "checkpoint.pth"
      = Some (Pickle c) /\
    getitem c "hidden_layers"
      = Ok (PyList (map PyInt (hidden_layer_sizes (example_model 784 10 2)))) /\
    getitem c "state_dict" = Ok (PyDict kvs) /\
    dims_chain (input_size (example_model 784 10 2))
      (weight_shapes kvs (length (hidden_layer_sizes (example_model 784 10 2))))
      (output_size (example_model 784 10 2)) /\
    (input_size (example_model 784 10 2) = 784 -> output_size (example_model 784 10 2) = 10 ->
     getitem c "input_size" = Ok (PyInt (input_size (example_model 784 10 2))) /\
     getitem c "output_size" = Ok (PyInt (output_size (example_model 784 10 2)))).
Proof.
  apply (saved_dimension_chain (example_world [example_model 784 10 2]) 0%nat
           (example_model 784 10 2)).
  - reflexivity.
  - repeat split; try discriminate; vm_compute; reflexivity.
Defined.

(** C6, counterexample: in the checkpoint of [fc_model.Network(3, 2, [4])]
    the stored input size is 784 and the stored output size 10, while the
    first weight matrix has 3 columns and the last has 2 rows. *)
Lemma saved_dimension_chain_off_784 :
  valid (example_model 3 2 4) /\
  getitem (checkpoint (example_model 3 2 4)) "input_size" = Ok (PyInt 784) /\
  getitem (checkpoint (example_model 3 2 4)) "output_size" = Ok (PyInt 10) /\
  weight_shapes (entries (named_layers (example_model 3 2 4))) 1
    = [Some [4; 3]; Some [2; 4]] /\
  ~ dims_chain 784 (weight_shapes (entries (named_layers (example_model 3 2 4))) 1) 10.
Proof.
  split; [|split; [|split; [|split]]].
  - repeat split; try discriminate; vm_compute; reflexivity.
  - reflexivity.
  - reflexivity.
  - vm_compute. reflexivity.
  - vm_compute. intros [H _]. discriminate H.
Qed.

(** C4, witness: the checkpoint of [fc_model.Network(784, 10, [2])]. *)
Lemma save_sufficient_witness :
  exists c,
    fs (snd (save 0%nat (example_world [example_model 784 10 2]))) !! "checkpoint.pth"
      = Some (Pickle c) /\
    getitem c "input_size" = Ok (PyInt 784) /\
    getitem c "output_size" = Ok (PyInt 10) /\
    getitem c "hidden_layers"
      = Ok (PyList (map PyInt (hidden_layer_sizes (example_model 784 10 2)))) /\
    getitem c "state_dict"
      = Ok (PyDict (map (fun kt => (fst kt, PyTensor (snd kt)))
                        (state_dict (example_model 784 10 2)))) /\
    (input_size (example_model 784 10 2) = 784 -> output_size (example_model 784 10 2) = 10 ->
     forall w' path, fs w' !! path = Some (Pickle c) ->
       exists model' w'' m',
         load_checkpoint ramp path w' = (Ok model', w'') /\
         heap w'' !! model' = Some m' /\
         input_size m' = input_size (example_model 784 10 2) /\
         output_size m' = output_size (example_model 784 10 2) /\
         hidden_layer_sizes m' = hidden_layer_sizes (example_model 784 10 2) /\
         state_dict m' = state_dict (example_model 784 10 2)).
Proof.
  apply (save_sufficient ramp (example_world [example_model 784 10 2]) 0%nat
           (example_model 784 10 2)).
  - reflexivity.
  - repeat split; try discriminate; vm_compute; reflexivity.
Defined.

(** C4, counterexample: the file written for [fc_model.Network(3, 2, [4])]
    says input size 784 and output size 10, which are not the model's, and
    [load_checkpoint] rebuilds no model from it. *)
Lemma save_insufficient_off_784 :
  valid (example_model 3 2 4) /\
  input_size (example_model 3 2 4) = 3 /\ output_size (example_model 3 2 4) = 2 /\
  exists c,
    fs (snd (save 0%nat (example_world [example_model 3 2 4]))) !! "checkpoint.pth"
      = Some (Pickle c) /\
    getitem c "input_size" = Ok (PyInt 784) /\
    getitem c "output_size" = Ok (PyInt 10) /\
    forall w, fs w = {["checkpoint.pth" := Pickle c]} ->
      exists e, fst (load_checkpoint ramp "checkpoint.pth" w) = Raise e.
Proof.
  split; [|split; [reflexivity|split; [reflexivity|]]].
  - repeat split; try discriminate; vm_compute; reflexivity.
  - exists (checkpoint (example_model 3 2 4)). split; [vm_compute; reflexivity|].
    split; [reflexivity|]. split; [reflexivity|]. intros w Hw.
    assert (Hinit : exists m0, Network_init ramp 784 10
                      (hidden_layer_sizes (example_model 3 2 4)) = Ok m0)
      by (eexists; vm_compute; reflexivity).
    destruct Hinit as [m0 Hinit].
    erewrite load_checkpoint_run; [| rewrite Hw; apply lookup_singleton_eq | exact Hinit].
    cbn [fst]. injection Hinit as <-. eexists. vm_compute. reflexivity.
Qed.

(** ** Sources that are not checkpoints *)

Section Corrupt.
Context {R : Type}.
Implicit Types (m : Network R) (init : string -> Z -> R) (w : world R)
  (kvs : list (string * pyobj R)).





End Corrupt.


(** What [load_checkpoint] raises on bytes that [torch.load] cannot read is
    what [torch.load] raises on them: a [RuntimeError] for a wrong magic
    number, which is no CorruptArtifact class; [EOFError] for an empty
    file. *)
Example unreadable_file_raises :
  fst (load_checkpoint ramp "checkpoint.pth"
         (World [] {["checkpoint.pth" := Raw [x00; x01]%byte InvalidMagicNumber]} []))
  = Raise RuntimeError_corrupt_file /\
  CorruptArtifact RuntimeError_corrupt_file = false /\
  fst (load_checkpoint ramp "checkpoint.pth"
         (World [] {["checkpoint.pth" := Raw [] EndOfFile]} []))
  = Raise EOFError.
Proof. split; [|split]; vm_compute; reflexivity. Qed.

(** The file that the earlier cell writes, the state dict alone, is no
    checkpoint either: [load_checkpoint] finds no ['input_size'] in it. *)
Example state_dict_file_is_no_checkpoint :
  fst (load_checkpoint ramp "checkpoint.pth"
         (snd (save_state_dict 0%nat (example_world [example_model 3 2 4]))))
  = Raise (KeyError "input_size").
Proof. vm_compute. reflexivity. Qed.


(** ** The training loop: what it counts and what it prints *)

Section TrainingLoop.
Context {L : Type}.
Variables (zero : L) (add : L -> L -> L) (quot : L -> Z -> L).
Implicit Types (ls pre : list L) (st : progress L) (losses : Z -> list L).

Local Abbreviation batch_ := (batch L zero add quot).
Local Abbreviation epoch_ := (epoch L zero add quot).
Local Abbreviation train_ := (train_loop L zero add quot).
Local Abbreviation total_ := (total L zero add).
Local Abbreviation report_ := (report L zero add quot).

Lemma omap_ext_in {A B} (f g : A -> option B) (l : list A) :
  (forall x, In x l -> f x = g x) -> omap f l = omap g l.
Proof.
  induction l as [|a l IH]; intros H; [reflexivity|]. cbn [omap list_omap].
  rewrite (H a) by now left. rewrite IH; [reflexivity|]. intros x Hx. apply H. now right.
Qed.

Lemma mod_before_multiple (s : Z) : (s + 1) mod 40 = 0 -> s mod 40 = 39.
Proof. intros H. Z.to_euclidean_division_equations. lia. Qed.

Lemma mod_succ (s : Z) : (s + 1) mod 40 <> 0 -> (s + 1) mod 40 = s mod 40 + 1.
Proof. intros H. Z.to_euclidean_division_equations. lia. Qed.

(** The lines reported for an epoch that gets one more batch. *)
Lemma report_snoc e s0 pre x :
  report_ e s0 (pre ++ [x]) =
    report_ e s0 pre ++
    (if decide ((s0 + Z.of_nat (S (length pre))) mod print_every = 0)
     then [(e + 1, quot (total_ (window L (pre ++ [x]) (S (length pre)))) print_every)]
     else []).
Proof.
  unfold report. rewrite length_app. cbn [length]. rewrite Nat.add_1_r, seq_S, omap_app.
  f_equal.
  - apply omap_ext_in. intros j Hj. apply in_seq in Hj.
    destruct (decide _); [|reflexivity]. unfold window. now rewrite take_app_le by lia.
  - cbn [omap list_omap]. cbn [Nat.add]. destruct (decide _); reflexivity.
Qed.

(** The state of the loop after the first batches [pre] of an epoch that
    starts at step count [s0]: the running loss sums the batches since the
    last printed line, or since the start of the epoch. *)
Lemma batches_run e s0 p0 pre :
  0 <= s0 ->
  foldl (batch_ e) (Progress s0 zero p0) pre =
    Progress (s0 + Z.of_nat (length pre))
      (total_ (drop (length pre
                    - Nat.min (length pre)
                        (Z.to_nat ((s0 + Z.of_nat (length pre)) mod print_every))) pre))
      (p0 ++ report_ e s0 pre).
Proof.
  intros Hs0. induction pre as [|x pre IH] using rev_ind.
  - cbn. now rewrite Z.add_0_r, app_nil_r.
  - rewrite foldl_snoc, IH, report_snoc. clear IH.
    rewrite length_app. cbn [length]. rewrite Nat.add_1_r.
    set (n := length pre).
    unfold batch. cbn [steps running_loss printed].
    replace (s0 + Z.of_nat n + 1) with (s0 + Z.of_nat (S n)) by lia.
    unfold print_every in *.
    assert (Hsnoc : add (total_ (drop (n - Nat.min n (Z.to_nat ((s0 + Z.of_nat n) mod 40))) pre)) x
                    = total_ (drop (n - Nat.min n (Z.to_nat ((s0 + Z.of_nat n) mod 40)))
                               (pre ++ [x]))).
    { unfold total. rewrite drop_app_le by (subst n; lia). now rewrite foldl_snoc. }
    destruct (decide ((s0 + Z.of_nat (S n)) mod 40 = 0)) as [Hz|Hnz].
    + rewrite Hz. cbn [Z.to_nat]. rewrite Nat.min_0_r, Nat.sub_0_r.
      rewrite (drop_ge (pre ++ [x]) (S n))
        by (rewrite length_app; cbn [length]; subst n; lia).
      rewrite <- app_assoc. f_equal. cbn [app]. do 3 f_equal.
      rewrite Hsnoc. unfold window.
      rewrite take_ge by (rewrite length_app; cbn [length]; subst n; lia).
      f_equal. f_equal.
      pose proof (mod_before_multiple (s0 + Z.of_nat n)) as Hp.
      replace (s0 + Z.of_nat n + 1) with (s0 + Z.of_nat (S n)) in Hp by lia.
      rewrite (Hp Hz).
      replace (S n - Z.to_nat print_every)%nat with (n - Nat.min n (Z.to_nat 39))%nat
        by (unfold print_every; lia).
      reflexivity.
    + rewrite app_nil_r. f_equal. rewrite Hsnoc. f_equal. f_equal.
      pose proof (mod_succ (s0 + Z.of_nat n)) as Hp.
      replace (s0 + Z.of_nat n + 1) with (s0 + Z.of_nat (S n)) in Hp by lia.
      rewrite (Hp Hnz).
      assert (0 <= (s0 + Z.of_nat n) mod 40 < 40) by (apply Z.mod_pos_bound; lia).
      lia.
Qed.

Lemma epoch_run losses st e :
  0 <= steps st ->
  steps (epoch_ losses st e) = steps st + Z.of_nat (length (losses e)) /\
  printed (epoch_ losses st e) = printed st ++ report_ e (steps st) (losses e).
Proof.
  intros Hs. unfold epoch. rewrite batches_run by exact Hs. split; reflexivity.
Qed.

(** The three epochs, one after the other. *)
Lemma train_loop_run losses :
  steps (train_ losses)
  = Z.of_nat (length (losses 0)) + Z.of_nat (length (losses 1))
    + Z.of_nat (length (losses 2)) /\
  printed (train_ losses) =
    report_ 0 0 (losses 0)
    ++ report_ 1 (Z.of_nat (length (losses 0))) (losses 1)
    ++ report_ 2 (Z.of_nat (length (losses 0)) + Z.of_nat (length (losses 1))) (losses 2).
Proof.
  unfold train_loop.
  change (seqZ 0 epochs) with [0; 1; 2]. cbn [foldl].
  destruct (epoch_run losses (Progress 0 zero []) 0) as [Hs1 Hp1]; [cbn; lia|].
  cbn [steps printed app] in Hs1, Hp1.
  set (st1 := epoch_ losses (Progress 0 zero []) 0) in *.
  destruct (epoch_run losses st1 1) as [Hs2 Hp2]; [lia|].
  set (st2 := epoch_ losses st1 1) in *.
  destruct (epoch_run losses st2 2) as [Hs3 Hp3]; [lia|].
  rewrite Hs3, Hp3, Hs2, Hp2, Hs1, Hp1. rewrite !Z.add_0_l.
  split; [lia|]. now rewrite <- app_assoc.
Qed.

(** X9: the cell prints the lines of epoch 1, then those of epoch 2, then
    those of epoch 3; the loss of a line is the sum, over 40, of the losses
    of its own epoch only that came in the 40 steps up to the line; and
    [steps] ends as the number of batches of the three epochs. *)
Theorem train_loop_report losses :
  let n0 := Z.of_nat (length (losses 0)) in
  let n1 := Z.of_nat (length (losses 1)) in
  let n2 := Z.of_nat (length (losses 2)) in
  steps (train_loop L zero add quot losses) = n0 + n1 + n2 /\
  printed (train_loop L zero add quot losses) =
    report L zero add quot 0 0 (losses 0)
    ++ report L zero add quot 1 n0 (losses 1)
    ++ report L zero add quot 2 (n0 + n1) (losses 2).
Proof. cbv zeta. apply train_loop_run. Qed.

(** The number of lines is the number of steps over 40, whatever the
    state a batch starts from. *)
Lemma batch_count e st x :
  0 <= steps st -> Z.of_nat (length (printed st)) = steps st / 40 ->
  0 <= steps (batch_ e st x) /\
  Z.of_nat (length (printed (batch_ e st x))) = steps (batch_ e st x) / 40.
Proof.
  intros Hs Hl. unfold batch, print_every.
  destruct (decide ((steps st + 1) mod 40 = 0)) as [Hz|Hnz]; cbn [steps printed].
  - rewrite length_app. cbn [length]. split; [lia|].
    Z.to_euclidean_division_equations. lia.
  - split; [lia|]. Z.to_euclidean_division_equations. lia.
Qed.

Lemma batches_count e ls st :
  0 <= steps st -> Z.of_nat (length (printed st)) = steps st / 40 ->
  0 <= steps (foldl (batch_ e) st ls) /\
  Z.of_nat (length (printed (foldl (batch_ e) st ls))) = steps (foldl (batch_ e) st ls) / 40.
Proof.
  revert st. induction ls as [|x ls IH]; intros st Hs Hl; [now split|].
  cbn [foldl]. destruct (batch_count e st x Hs Hl) as [Hs' Hl']. now apply IH.
Qed.

(** X10: the cell prints one line for every 40 batches it processes,
    however the batches fall into epochs: the number of lines is the whole
    number of batches divided by 40, rounded down. *)
Theorem train_loop_line_count losses :
  Z.of_nat (length (printed (train_loop L zero add quot losses)))
  = (Z.of_nat (length (losses 0)) + Z.of_nat (length (losses 1))
     + Z.of_nat (length (losses 2))) / 40.
Proof.
  destruct (train_loop_run losses) as [Hs _]. rewrite <- Hs.
  unfold train_loop. change (seqZ 0 epochs) with [0; 1; 2]. cbn [foldl]. unfold epoch.
  set (st0 := Progress 0 zero []).
  assert (H0 : 0 <= steps st0 /\ Z.of_nat (length (printed st0)) = steps st0 / 40)
    by (subst st0; cbn; split; [lia | reflexivity]).
  destruct H0 as [Ha Hb].
  destruct (batches_count 0 (losses 0) (Progress (steps st0) zero (printed st0)) Ha Hb)
    as [Ha1 Hb1].
  set (st1 := foldl (batch_ 0) _ (losses 0)) in *.
  destruct (batches_count 1 (losses 1) (Progress (steps st1) zero (printed st1)) Ha1 Hb1)
    as [Ha2 Hb2].
  set (st2 := foldl (batch_ 1) _ (losses 1)) in *.
  destruct (batches_count 2 (losses 2) (Progress (steps st2) zero (printed st2)) Ha2 Hb2)
    as [_ Hb3].
  exact Hb3.
Qed.

(** X11: an epoch that starts [c] steps after a multiple of 40, with
    [0 < c < 40], and has at least [40 - c] batches prints as its first
    line the sum of its first [40 - c] losses only, still divided by 40. *)
Theorem epoch_first_line losses st e c :
  0 <= steps st -> steps st mod 40 = c -> 0 < c ->
  (Z.to_nat (40 - c) <= length (losses e))%nat ->
  exists rest,
    printed (epoch L zero add quot losses st e) =
      printed st
      ++ (e + 1, quot (total L zero add (take (Z.to_nat (40 - c)) (losses e))) 40) :: rest.
Proof.
  intros Hs Hc Hpos Hlen. destruct (epoch_run losses st e Hs) as [_ ->].
  assert (Hc40 : c < 40) by (subst c; apply Z.mod_pos_bound; lia).
  set (k := Z.to_nat (40 - c)) in *. set (ls := losses e) in *.
  unfold report.
  replace (length ls) with ((k - 1) + (1 + (length ls - k)))%nat by lia.
  rewrite seq_app, omap_app.
  replace (omap _ (seq 1 (k - 1))) with (@nil (Z * L)).
  2:{ symmetry. rewrite (omap_ext_in _ (fun _ => None)).
      - clear. induction (seq 1 (k - 1)); [reflexivity|assumption].
      - intros j Hj. apply in_seq in Hj. unfold print_every.
        rewrite decide_False; [reflexivity|].
        intros Hz. Z.to_euclidean_division_equations. lia. }
  cbn [app]. replace (1 + (k - 1))%nat with k by lia. cbn [seq omap list_omap Nat.add].
  unfold print_every. rewrite decide_True.
  2:{ Z.to_euclidean_division_equations. lia. }
  eexists. f_equal. f_equal. unfold window.
  replace (k - Z.to_nat print_every)%nat with 0%nat by (unfold print_every; lia).
  reflexivity.
Qed.
End TrainingLoop.

(** ** The state dict alone: saving it, loading it back *)

Section StateDictCells.
Context {R : Type}.
Implicit Types (m : Network R) (init : string -> Z -> R) (w : world R)
  (kvs : list (string * pyobj R)).

Lemma shape_copy_tensor kvs key (p : tensor R) : shape (copy_tensor kvs key p) = shape p.
Proof.
  unfold copy_tensor. destruct (dict_get kvs key) as [[]|]; try reflexivity.
  destruct (decide _); reflexivity.
Qed.

Lemma same_layout_copy_layer kvs prefix (l : Linear R) :
  same_layout (copy_layer kvs prefix l) l.
Proof. unfold same_layout, copy_layer. cbn. now rewrite !shape_copy_tensor. Qed.

Lemma same_layout_copy_hidden kvs k (ls : list (Linear R)) :
  Forall2 same_layout (copy_hidden kvs k ls) ls.
Proof.
  revert k. induction ls as [|l ls IH]; intros k; [constructor|].
  cbn [copy_hidden]. constructor; [apply same_layout_copy_layer | apply IH].
Qed.

Lemma same_architecture_copy_params kvs m : same_architecture (copy_params kvs m) m.
Proof.
  split; cbn [copy_params hidden_layers output];
    [apply same_layout_copy_hidden | apply same_layout_copy_layer].
Qed.

Lemma same_architecture_refl m : same_architecture m m.
Proof.
  split; [|apply same_layout_refl].
  induction (hidden_layers m); constructor; [apply same_layout_refl | assumption].
Qed.

(** X1: whatever [load_state_dict] is given, and whether it returns or
    raises, the model it is called on keeps its architecture (the features
    of every layer and the shape of every parameter), every other object is
    left as it was and no file changes. *)
Theorem load_state_dict_keeps_architecture w model m (sd : pyobj R) :
  heap w !! model = Some m ->
  exists m',
    heap (snd (load_state_dict model sd w)) !! model = Some m' /\
    same_architecture m' m /\
    (forall obj, obj <> model ->
                 heap (snd (load_state_dict model sd w)) !! obj = heap w !! obj) /\
    fs (snd (load_state_dict model sd w)) = fs w.
Proof.
  intros Hm. destruct sd as [z|s|t|xs|kvs];
    try (exists m; unfold load_state_dict, deref, bind, log, raise; cbn [heap fs calls];
         rewrite Hm; cbn [snd heap fs];
         split; [exact Hm | split; [apply same_architecture_refl | split; reflexivity]]).
  rewrite (load_state_dict_run _ _ m kvs Hm). cbn [snd heap fs].
  exists (copy_params kvs m). split.
  - apply list_lookup_insert_eq. eapply lookup_lt_Some, Hm.
  - split; [apply same_architecture_copy_params|]. split; [|reflexivity].
    intros obj Hne. apply list_lookup_insert_ne. congruence.
Qed.

(** X2: for every model, of whatever sizes, saving its state dict and
    loading the file into a model of the same architecture succeeds and
    makes that model equal to the saved one; loading it into the saved
    model itself changes nothing. *)
Theorem state_dict_roundtrip w model other m m0 :
  heap w !! model = Some m -> heap w !! other = Some m0 -> same_architecture m0 m ->
  exists w1 w2,
    save_state_dict model w = (Ok tt, w1) /\
    reload_state_dict other w1 = (Ok tt, w2) /\
    heap w2 = <[other := m]> (heap w) /\
    (other = model -> heap w2 = heap w).
Proof.
  intros Hm Ho Harch. eexists _, _. split.
  - unfold save_state_dict, deref, torch_save, bind, log. rewrite Hm. reflexivity.
  - cbn [heap fs calls]. unfold reload_state_dict, torch_load, bind, log. cbn [heap fs calls].
    rewrite lookup_insert_eq, state_dict_obj_entries.
    rewrite (load_state_dict_run _ _ m0) by exact Ho. cbn [heap fs calls].
    rewrite (load_errors_state_dict _ _ Harch), (copy_params_state_dict _ _ Harch).
    split; [reflexivity|]. cbn [heap]. split; [reflexivity|].
    intros ->. now apply list_insert_id.
Qed.

Lemma dict_get_no_parameter (nls : list (string * Linear R)) key :
  (forall prefix suffix, key <> prefix +:+ suffix \/ prefix ∉ map fst nls) ->
  dict_get (entries nls) key = None.
Proof.
  intros Hkey. induction nls as [|[p l] nls IH]; [reflexivity|].
  rewrite entries_cons. cbn [dict_get fst snd].
  assert (Hp : forall suffix, key <> p +:+ suffix).
  { intros suffix. destruct (Hkey p suffix) as [H|H]; [exact H|].
    destruct H. cbn [map fst]. apply list_elem_of_here. }
  rewrite !decide_False by (apply not_eq_sym, Hp).
  apply IH. intros prefix suffix. destruct (Hkey prefix suffix) as [H|H]; [now left|].
  right. intros Hin. apply H. cbn [map fst]. now apply list_elem_of_further.
Qed.

Lemma prefixes_named_layers m prefix :
  prefix ∈ map fst (named_layers m) ->
  prefix = "output" \/ exists k, prefix = hidden_name k.
Proof.
  unfold named_layers. rewrite map_app, elem_of_app. intros [H|H].
  - right. revert H. generalize 0%nat. induction (hidden_layers m) as [|l ls IH]; intros k H.
    + now apply elem_of_nil in H.
    + cbn in H. apply elem_of_cons in H as [->|H]; [now exists k | now apply (IH (S k))].
  - left. cbn in H. now apply list_elem_of_singleton in H.
Qed.

(** A state dict has no entry called ['input_size']. *)
Lemma state_dict_no_input_size m :
  dict_get (entries (named_layers m)) "input_size" = None.
Proof.
  apply dict_get_no_parameter. intros prefix suffix.
  destruct (decide (prefix ∈ map fst (named_layers m))) as [Hin|Hout]; [|now right].
  left. apply prefixes_named_layers in Hin as [->|[k ->]].
  - cbn. discriminate.
  - unfold hidden_name. cbn. discriminate.
Qed.

(** X3: [load_checkpoint] on the file that holds a model's state dict
    alone, as the first saving cell writes it, raises
    [KeyError('input_size')] for every model, after [torch.load] and before
    any model is built. *)
Theorem load_checkpoint_of_state_dict init w model m :
  heap w !! model = Some m ->
  exists w1 w2,
    save_state_dict model w = (Ok tt, w1) /\
    load_checkpoint init "checkpoint.pth" w1 = (Raise (KeyError "input_size"), w2) /\
    heap w2 = heap w /\
    calls w2 = calls w1 ++ [CallTorchLoad "checkpoint.pth"].
Proof.
  intros Hm. eexists _, _. split.
  - unfold save_state_dict, deref, torch_save, bind, log. rewrite Hm. reflexivity.
  - cbn [heap fs calls]. unfold load_checkpoint, torch_load, bind, log, lift.
    cbn [heap fs calls]. rewrite lookup_insert_eq, state_dict_obj_entries.
    cbn [getitem]. rewrite state_dict_no_input_size. split; [reflexivity|]. split; reflexivity.
Qed.

(** X4: when the file holds a dictionary that lacks one of the three
    descriptor keys, [load_checkpoint] raises the [KeyError] of the first
    of ['input_size'], ['output_size'], ['hidden_layers'] that is missing,
    and builds nothing. *)
Theorem load_checkpoint_missing_key init w path kvs :
  fs w !! path = Some (Pickle (PyDict kvs)) ->
  dict_get kvs "input_size" = None \/ dict_get kvs "output_size" = None
  \/ dict_get kvs "hidden_layers" = None ->
  exists key w',
    load_checkpoint init path w = (Raise (KeyError key), w') /\
    heap w' = heap w /\
    key = match dict_get kvs "input_size", dict_get kvs "output_size" with
          | None, _ => "input_size"
          | Some _, None => "output_size"
          | Some _, Some _ => "hidden_layers"
          end.
Proof.
  intros Hfs Hmiss. unfold load_checkpoint, torch_load, bind, log, lift.
  cbn [heap fs calls]. rewrite Hfs. cbn [getitem].
  destruct (dict_get kvs "input_size") as [a|];
    [|eexists _, _; split; [reflexivity | split; reflexivity]].
  destruct (dict_get kvs "output_size") as [b|];
    [|eexists _, _; split; [reflexivity | split; reflexivity]].
  destruct (dict_get kvs "hidden_layers") as [c|];
    [|eexists _, _; split; [reflexivity | split; reflexivity]].
  destruct Hmiss as [H|[H|H]]; discriminate H.
Qed.
End StateDictCells.

(** ** What [load_checkpoint] does in general *)

Section LoadInGeneral.
Context {R : Type}.
Implicit Types (m : Network R) (init : string -> Z -> R) (w : world R)
  (kvs sd : list (string * pyobj R)).

(** [load_checkpoint] on a dictionary with a descriptor that builds a model
    and a state dict. *)
Lemma load_checkpoint_dict_run init path w kvs i o xs hs sd m0 :
  fs w !! path = Some (Pickle (PyDict kvs)) ->
  dict_get kvs "input_size" = Some (PyInt i) ->
  dict_get kvs "output_size" = Some (PyInt o) ->
  dict_get kvs "hidden_layers" = Some (PyList xs) ->
  as_ints xs = Ok hs ->
  dict_get kvs "state_dict" = Some (PyDict sd) ->
  Network_init init i o hs = Ok m0 ->
  load_checkpoint init path w =
    (match load_errors sd m0 with
     | [] => Ok (length (heap w))
     | errs => Raise (RuntimeError errs)
     end,
     World (heap w ++ [copy_params sd m0]) (fs w)
           (calls w ++ [CallTorchLoad path; CallNetwork i o hs;
                        CallLoadStateDict (length (heap w))])).
Proof.
  intros Hfs Hi Ho Hh Hxs Hsd Hinit.
  unfold load_checkpoint, torch_load, bind, log, lift. cbn [fs heap calls]. rewrite Hfs.
  cbn [getitem]. rewrite Hi, Ho, Hh, Hsd.
  unfold fc_model_Network, alloc, bind, lift, log. cbn [as_int as_int_list fs heap calls].
  rewrite Hxs, Hinit.
  unfold load_state_dict, deref, bind, log. cbn [fs heap calls].
  rewrite lookup_new_object. cbn [fs heap calls].
  rewrite insert_new_object, <- !app_assoc. cbn [app].
  destruct (load_errors sd m0); reflexivity.
Qed.

(** What a call of [load_checkpoint] that returns has found in the file. *)
Lemma load_checkpoint_returns init path w model' w' :
  load_checkpoint init path w = (Ok model', w') ->
  exists kvs i o xs hs sd m0,
    fs w !! path = Some (Pickle (PyDict kvs)) /\
    dict_get kvs "input_size" = Some (PyInt i) /\
    dict_get kvs "output_size" = Some (PyInt o) /\
    dict_get kvs "hidden_layers" = Some (PyList xs) /\
    as_ints xs = Ok hs /\
    dict_get kvs "state_dict" = Some (PyDict sd) /\
    Network_init init i o hs = Ok m0 /\
    load_errors sd m0 = [].
Proof.
  unfold load_checkpoint, torch_load, bind, log, lift. cbn [fs heap calls].
  destruct (fs w !! path) as [[v|bytes failure]|] eqn:Hfs; try discriminate.
  destruct v as [z|s|t|ys|kvs]; cbn [getitem]; try discriminate.
  destruct (dict_get kvs "input_size") as [a|] eqn:Ha; [|discriminate].
  destruct (dict_get kvs "output_size") as [b|] eqn:Hb; [|discriminate].
  destruct (dict_get kvs "hidden_layers") as [c|] eqn:Hc; [|discriminate].
  unfold fc_model_Network, alloc, bind, lift, log.
  destruct a as [i| | | |]; cbn [as_int]; try discriminate.
  destruct b as [o| | | |]; cbn [as_int]; try discriminate.
  destruct c as [| | |xs|]; cbn [as_int_list]; try discriminate.
  destruct (as_ints xs) as [hs|e] eqn:Hxs; [|discriminate]. cbn [fs heap calls].
  destruct (Network_init init i o hs) as [m0|e] eqn:Hinit; [|discriminate].
  destruct (dict_get kvs "state_dict") as [sdo|] eqn:Hsd; [|discriminate].
  unfold load_state_dict, deref, bind, log, raise. cbn [fs heap calls].
  rewrite lookup_new_object.
  destruct sdo as [| | | |sd]; try discriminate.
  destruct (load_errors sd m0) eqn:Herr; [|discriminate].
  intros _. exists kvs, i, o, xs, hs, sd, m0. repeat split; assumption.
Qed.

(** X5: whatever the file holds, [load_checkpoint] changes no object that
    exists: the heap afterwards is the heap before, followed by at most the
    one model it has built; a reference it returns is to that new model. *)
Theorem load_checkpoint_frame init path w :
  (heap (snd (load_checkpoint init path w)) = heap w \/
   exists m', heap (snd (load_checkpoint init path w)) = heap w ++ [m']) /\
  forall model', fst (load_checkpoint init path w) = Ok model' ->
    model' = length (heap w) /\
    length (heap (snd (load_checkpoint init path w))) = S (length (heap w)).
Proof.
  unfold load_checkpoint, torch_load, bind, log, lift. cbn [fs heap calls].
  destruct (fs w !! path) as [[v|bytes failure]|];
    try (cbn [fst snd heap]; split; [now left | discriminate]).
  destruct v as [z|s|t|ys|kvs]; cbn [getitem];
    try (cbn [fst snd heap]; split; [now left | discriminate]).
  destruct (dict_get kvs "input_size") as [a|];
    [|cbn [fst snd heap]; split; [now left | discriminate]].
  destruct (dict_get kvs "output_size") as [b|];
    [|cbn [fst snd heap]; split; [now left | discriminate]].
  destruct (dict_get kvs "hidden_layers") as [c|];
    [|cbn [fst snd heap]; split; [now left | discriminate]].
  unfold fc_model_Network, alloc, bind, lift, log.
  destruct (as_int a) as [i|]; [|cbn [fst snd heap]; split; [now left | discriminate]].
  destruct (as_int b) as [o|]; [|cbn [fst snd heap]; split; [now left | discriminate]].
  destruct (as_int_list c) as [hs|];
    [|cbn [fst snd heap]; split; [now left | discriminate]].
  cbn [fs heap calls].
  destruct (Network_init init i o hs) as [m0|];
    [|cbn [fst snd heap]; split; [now left | discriminate]].
  destruct (dict_get kvs "state_dict") as [sdo|];
    [|cbn [fst snd heap]; split; [right; now exists m0 | discriminate]].
  unfold load_state_dict, deref, bind, log, raise. cbn [fs heap calls].
  rewrite lookup_new_object.
  destruct sdo as [| | | |sd];
    try (cbn [fst snd heap]; split; [right; now exists m0 | discriminate]).
  cbn [fs heap calls]. rewrite insert_new_object.
  destruct (load_errors sd m0); cbn [fst snd heap ret].
  - split; [right; eauto|]. intros model' [= <-]. rewrite length_app. cbn [length].
    split; [reflexivity | lia].
  - split; [right; eauto | discriminate].
Qed.
End LoadInGeneral.

(** ** A load that succeeds *)

Section CleanLoad.
Context {R : Type}.
Implicit Types (m : Network R) (init : string -> Z -> R) (w : world R)
  (kvs sd : list (string * pyobj R)) (ls : list (Linear R)).

Lemma as_ints_inv (xs : list (pyobj R)) hs : as_ints xs = Ok hs -> xs = map PyInt hs.
Proof.
  revert hs. induction xs as [|x xs IH]; intros hs H.
  - now injection H as <-.
  - cbn [as_ints] in H. destruct x; cbn [as_int] in H; try discriminate.
    destruct (as_ints xs) as [zs|e]; [|discriminate]. injection H as <-.
    cbn [map]. now rewrite (IH zs).
Qed.

(** A load without messages has found, for every parameter of the model, a
    tensor of its shape, and nothing else. *)
Lemma load_errors_nil sd m :
  load_errors sd m = [] ->
  (forall kp, kp ∈ state_dict m ->
     exists t, dict_get sd (fst kp) = Some (PyTensor t) /\ shape t = shape (snd kp)) /\
  (forall k, k ∈ map fst sd -> k ∈ map fst (state_dict m)).
Proof.
  unfold load_errors. intros H.
  apply app_eq_nil in H as [Hmiss H]. apply app_eq_nil in H as [Hunex Hcopy].
  apply map_eq_nil in Hmiss, Hunex. split.
  - intros kp Hkp.
    destruct (copy_error sd kp) as [err|] eqn:Herr.
    { assert (Hin : err ∈ omap (copy_error sd) (state_dict m))
        by (apply list_elem_of_omap; eauto).
      rewrite Hcopy in Hin. now apply elem_of_nil in Hin. }
    unfold copy_error in Herr. destruct (dict_get sd (fst kp)) as [v|] eqn:Hget.
    + destruct v; try discriminate. destruct (decide _) as [Hsh|]; [|discriminate]. eauto.
    + exfalso. eapply (filter_nil_not_elem_of _ _ (fst kp) Hmiss Hget).
      apply list_elem_of_fmap. eauto.
  - intros k Hk. destruct (decide (k ∈ map fst (state_dict m))) as [Hin|Hout]; [exact Hin|].
    exfalso. apply (filter_nil_not_elem_of _ _ k Hunex Hout Hk).
Qed.

Lemma named_hidden_copy kvs k ls :
  named_hidden k (copy_hidden kvs k ls)
  = map (fun nl => (fst nl, copy_layer kvs (fst nl) (snd nl))) (named_hidden k ls).
Proof.
  revert k. induction ls as [|l ls IH]; intros k; [reflexivity|].
  cbn [copy_hidden named_hidden map fst snd]. now rewrite IH.
Qed.

(** The state dict of a model after a load: every parameter is what
    copying its entry gives. *)
Lemma state_dict_copy_params kvs m :
  state_dict (copy_params kvs m)
  = map (fun kp => (fst kp, copy_tensor kvs (fst kp) (snd kp))) (state_dict m).
Proof.
  unfold state_dict, named_layers, copy_params. cbn [hidden_layers output].
  rewrite named_hidden_copy, !flat_map_app, map_app. f_equal.
  induction (named_hidden 0 (hidden_layers m)) as [|nl nls IH]; [reflexivity|].
  cbn [map flat_map]. rewrite IH. cbn [layer_parameters app map fst snd copy_layer weight bias].
  reflexivity.
Qed.

Lemma same_architecture_fields m' m :
  same_architecture m' m ->
  input_size m' = input_size m /\ output_size m' = output_size m /\
  hidden_layer_sizes m' = hidden_layer_sizes m.
Proof.
  intros [Hh (Hoi & Hoo & _)]. unfold input_size, output_size, hidden_layer_sizes.
  split; [|split; [exact Hoo|]].
  - destruct Hh as [|l' l ls' ls (Hi & _) _]; [exact Hoi | exact Hi].
  - induction Hh as [|l' l ls' ls (_ & Ho & _) _ IH]; [reflexivity|].
    cbn [map]. now rewrite Ho, IH.
Qed.

(** X6: a model that [load_checkpoint] returns is the one the file
    describes, whatever the file: its input size, output size and hidden
    layer sizes are the stored descriptor fields, each of its parameters is
    the tensor stored under its name, and the stored state dict has no
    other entry. *)
Theorem load_checkpoint_sound init path w model' w' :
  load_checkpoint init path w = (Ok model', w') ->
  exists kvs i o hs sd m',
    fs w !! path = Some (Pickle (PyDict kvs)) /\
    dict_get kvs "input_size" = Some (PyInt i) /\
    dict_get kvs "output_size" = Some (PyInt o) /\
    dict_get kvs "hidden_layers" = Some (PyList (map PyInt hs)) /\
    dict_get kvs "state_dict" = Some (PyDict sd) /\
    heap w' !! model' = Some m' /\
    input_size m' = i /\ output_size m' = o /\ hidden_layer_sizes m' = hs /\
    (forall k t, (k, t) ∈ state_dict m' -> dict_get sd k = Some (PyTensor t)) /\
    (forall k, k ∈ map fst sd -> k ∈ map fst (state_dict m')).
Proof.
  intros Hload.
  destruct (load_checkpoint_returns _ _ _ _ _ Hload)
    as (kvs & i & o & xs & hs & sd & m0 & Hfs & Hi & Ho & Hh & Hxs & Hsd & Hinit & Herr).
  rewrite (load_checkpoint_dict_run init path w kvs i o xs hs sd m0) in Hload by assumption.
  rewrite Herr in Hload. injection Hload as <- <-.
  destruct (load_errors_nil _ _ Herr) as [Hclean Hkeys].
  destruct (Network_init_valid _ _ _ _ _ Hinit) as (_ & Hfi & Hfo & Hfh).
  destruct (same_architecture_fields _ _ (same_architecture_copy_params sd m0))
    as (Hci & Hco & Hch).
  exists kvs, i, o, hs, sd, (copy_params sd m0).
  rewrite <- (as_ints_inv _ _ Hxs). cbn [heap].
  repeat split; try assumption; try congruence.
  - apply lookup_new_object.
  - intros k t Hin. rewrite state_dict_copy_params in Hin.
    apply list_elem_of_fmap in Hin as ([k0 p] & [= -> ->] & Hp). cbn [fst snd].
    destruct (Hclean _ Hp) as (t0 & Hget & Hsh). cbn [fst snd] in *.
    rewrite Hget. unfold copy_tensor. rewrite Hget, decide_True by exact Hsh.
    rewrite <- Hsh. now destruct t0.
  - intros k Hk. rewrite state_dict_copy_params, map_map. cbn [fst]. now apply Hkeys.
Qed.
End CleanLoad.

(** ** The random initialisation does not show in a loaded model *)

Section InitIndependent.
Context {R : Type}.
Implicit Types (m : Network R) (init : string -> Z -> R) (w : world R)
  (kvs sd : list (string * pyobj R)) (ls : list (Linear R)).

(** Whether the constructor returns, and the architecture it builds, do not
    depend on the initial values. *)
Lemma Network_init_any_init init1 init2 i o hs m1 :
  Network_init init1 i o hs = Ok m1 ->
  exists m2, Network_init init2 i o hs = Ok m2 /\ same_architecture m2 m1.
Proof.
  intros H1. destruct (Network_init_valid _ _ _ _ _ H1) as (Hv & Hi & Ho & Hh).
  destruct (Network_init_of_valid init2 m1 Hv) as (m2 & H2 & Harch).
  rewrite Hi, Ho, Hh in H2. eauto.
Qed.

Lemma hidden_weight_elem_of m j l :
  hidden_layers m !! j = Some l ->
  (hidden_name j +:+ ".weight", weight l) ∈ state_dict m.
Proof.
  intros Hj. apply entries_elem_of, dict_get_elem_of.
  apply (dict_get_hidden_weight _ _ 0 j l Hj).
Qed.

Lemma output_elem_of m :
  ("output.weight", weight (output m)) ∈ state_dict m /\
  ("output.bias", bias (output m)) ∈ state_dict m.
Proof.
  split; apply entries_elem_of, dict_get_elem_of;
    [apply dict_get_output_weight | apply dict_get_output_bias].
Qed.

(** After a load without messages every layer of the model has found its
    two entries. *)
Lemma load_errors_nil_layers sd m :
  load_errors sd m = [] ->
  (forall j l, hidden_layers m !! j = Some l -> clean_layer sd (hidden_name j) l) /\
  clean_layer sd "output" (output m).
Proof.
  intros Herr. destruct (load_errors_nil _ _ Herr) as [Hclean _]. split.
  - intros j l Hj.
    destruct (Hclean _ (hidden_weight_elem_of m j l Hj)) as (tw & Hw & Hsw).
    destruct (Hclean _ (hidden_bias_elem_of m j l Hj)) as (tb & Hb & Hsb).
    exists tw, tb. auto.
  - destruct (output_elem_of m) as [Hinw Hinb].
    destruct (Hclean _ Hinw) as (tw & Hw & Hsw). destruct (Hclean _ Hinb) as (tb & Hb & Hsb).
    exists tw, tb. auto.
Qed.

Lemma copy_layer_clean sd prefix (l' l : Linear R) :
  clean_layer sd prefix l -> same_layout l' l ->
  copy_layer sd prefix l' = copy_layer sd prefix l /\
  omap (copy_error sd) (layer_parameters (prefix, l')) = [].
Proof.
  intros (tw & tb & Hw & Hsw & Hb & Hsb) (Hi & Ho & Hlw & Hlb). split.
  - unfold copy_layer, copy_tensor. rewrite Hw, Hb, Hi, Ho, Hlw, Hlb.
    rewrite !decide_True by assumption. reflexivity.
  - unfold layer_parameters, copy_error. cbn [omap list_omap fst snd].
    rewrite Hw, Hb, !decide_True by congruence. reflexivity.
Qed.

Lemma copy_hidden_clean sd k ls' ls :
  Forall2 same_layout ls' ls ->
  (forall j l, ls !! j = Some l -> clean_layer sd (hidden_name (k + j)) l) ->
  copy_hidden sd k ls' = copy_hidden sd k ls /\
  omap (copy_error sd) (flat_map layer_parameters (named_hidden k ls')) = [].
Proof.
  intros Hf. revert k. induction Hf as [|l' l ls' ls Hl _ IH]; intros k Hc;
    [split; reflexivity|].
  pose proof (Hc 0%nat l eq_refl) as Hc0. rewrite Nat.add_0_r in Hc0.
  destruct (copy_layer_clean _ _ _ _ Hc0 Hl) as [Hcopy Herr].
  destruct (IH (S k)) as [IHcopy IHerr].
  { intros j l0 Hj. replace (S k + j)%nat with (k + S j)%nat by lia. now apply Hc. }
  cbn [copy_hidden named_hidden flat_map]. rewrite omap_app, Hcopy, IHcopy, Herr, IHerr.
  split; reflexivity.
Qed.

(** A state dict that loads without messages into a model loads without
    messages, and to the same result, into every model of the same
    architecture. *)
Lemma clean_load_any_values sd m' m :
  load_errors sd m = [] -> same_architecture m' m ->
  load_errors sd m' = [] /\ copy_params sd m' = copy_params sd m.
Proof.
  intros Herr [Hh Ho].
  destruct (load_errors_nil_layers _ _ Herr) as [Hhid Hout].
  destruct (copy_hidden_clean sd 0 _ _ Hh Hhid) as [Hcopy Hnone].
  destruct (copy_layer_clean _ _ _ _ Hout Ho) as [Hcopyo Hnoneo].
  pose proof (keys_state_dict _ _ (Forall2_length _ _ _ Hh)) as Hkeys.
  split.
  - unfold load_errors in *. apply app_eq_nil in Herr as [Hmiss Herr].
    apply app_eq_nil in Herr as [Hunex _].
    unfold missing_keys, unexpected_keys in *. rewrite Hkeys, Hmiss, Hunex. cbn [app].
    unfold state_dict, named_layers. rewrite flat_map_app, omap_app, Hnone.
    cbn [flat_map app]. rewrite app_nil_r. exact Hnoneo.
  - unfold copy_params. now rewrite Hcopy, Hcopyo.
Qed.

(** X7: when [load_checkpoint] returns a model, it returns the same model,
    in the same state, whatever the initial values the constructor draws:
    nothing of the random initialisation is left in a loaded model. *)
Theorem load_checkpoint_any_init init1 init2 path w model' w' :
  load_checkpoint init1 path w = (Ok model', w') ->
  load_checkpoint init2 path w = (Ok model', w').
Proof.
  intros Hload.
  destruct (load_checkpoint_returns _ _ _ _ _ Hload)
    as (kvs & i & o & xs & hs & sd & m1 & Hfs & Hi & Ho & Hh & Hxs & Hsd & Hinit & Herr).
  rewrite (load_checkpoint_dict_run init1 path w kvs i o xs hs sd m1) in Hload by assumption.
  destruct (Network_init_any_init init1 init2 _ _ _ _ Hinit) as (m2 & Hinit2 & Harch).
  destruct (clean_load_any_values sd m2 m1 Herr Harch) as [Herr2 Hcopy].
  rewrite (load_checkpoint_dict_run init2 path w kvs i o xs hs sd m2) by assumption.
  rewrite Herr2, Hcopy. rewrite Herr in Hload. exact Hload.
Qed.
End InitIndependent.

(** ** The keys of a state dict *)

Section Keys.
Context {R : Type}.
Implicit Types (m : Network R) (ls : list (Linear R)).

Lemma dict_get_hidden_before ls (o : Linear R) k j :
  (j < k)%nat ->
  dict_get (entries (named_hidden k ls ++ [("output", o)])) (hidden_name j +:+ ".weight")
    = None /\
  dict_get (entries (named_hidden k ls ++ [("output", o)])) (hidden_name j +:+ ".bias")
    = None.
Proof.
  revert k. induction ls as [|l ls IH]; intros k Hj.
  - cbn [named_hidden app]. rewrite entries_cons. cbn [dict_get fst snd].
    rewrite !decide_False by (apply not_eq_sym, hidden_param_ne_output). split; reflexivity.
  - cbn [named_hidden]. rewrite <- app_comm_cons, entries_cons. cbn [dict_get fst snd].
    destruct (IH (S k)) as [IHw IHb]; [lia|]. split.
    + rewrite decide_False by (intros E; apply hidden_weight_inj in E; lia).
      rewrite decide_False by (apply not_eq_sym, weight_ne_bias). exact IHw.
    + rewrite decide_False by apply weight_ne_bias.
      rewrite decide_False by (intros E; apply hidden_bias_inj in E; lia). exact IHb.
Qed.

Lemma keys_NoDup ls (o : Linear R) k :
  NoDup (map fst (entries (named_hidden k ls ++ [("output", o)]))).
Proof.
  revert k. induction ls as [|l ls IH]; intros k.
  - cbn. repeat constructor.
    + intros H. apply list_elem_of_singleton in H. discriminate H.
    + apply not_elem_of_nil.
  - cbn [named_hidden]. rewrite <- app_comm_cons, entries_cons. cbn [map fst].
    destruct (dict_get_hidden_before ls o (S k) k) as [Hw Hb]; [lia|].
    apply dict_get_None in Hw, Hb.
    constructor; [|constructor; [exact Hb | apply IH]].
    rewrite not_elem_of_cons. split; [apply weight_ne_bias | exact Hw].
Qed.

Lemma dict_get_NoDup {A} (d : list (string * A)) key v :
  NoDup (map fst d) -> (key, v) ∈ d -> dict_get d key = Some v.
Proof.
  induction d as [|[k x] d IH]; intros Hnd Hin; [now apply elem_of_nil in Hin|].
  cbn [map fst] in Hnd. apply NoDup_cons in Hnd as [Hk Hnd]. cbn [dict_get].
  apply elem_of_cons in Hin as [[= -> ->]|Hin].
  - now rewrite decide_True.
  - rewrite decide_False; [now apply IH|].
    intros ->. apply Hk. apply list_elem_of_fmap. now exists (key, v).
Qed.

Lemma length_named_hidden k ls : length (named_hidden k ls) = length ls.
Proof. revert k. induction ls as [|l ls IH]; intros k; [reflexivity|]. cbn. now rewrite IH. Qed.

(** X8: the names under which [state_dict()] lists the parameters are
    pairwise distinct, two for every layer; so the state dict is a mapping,
    and looking a name up in it gives the parameter listed under it. *)
Theorem state_dict_keys m :
  NoDup (map fst (state_dict m)) /\
  length (state_dict m) = (2 * length (hidden_layers m) + 2)%nat /\
  forall key t, (key, t) ∈ state_dict m -> dict_get (state_dict m) key = Some t.
Proof.
  assert (Hnd : NoDup (map fst (state_dict m))).
  { unfold state_dict. rewrite <- keys_entries. apply keys_NoDup. }
  split; [exact Hnd|]. split.
  - unfold state_dict, named_layers. rewrite flat_map_app, length_app. cbn [flat_map length app].
    rewrite <- (length_named_hidden 0 (hidden_layers m)).
    induction (named_hidden 0 (hidden_layers m)) as [|nl nls IH]; [reflexivity|].
    cbn [flat_map layer_parameters app length] in *. lia.
  - intros key t Hin. now apply dict_get_NoDup.
Qed.
End Keys.

(** The keys of the state dict of a model with three hidden layers, as the
    notebook prints them. *)
Example state_dict_keys_printed :
  forall (m : Network Z), length (hidden_layers m) = 3%nat ->
    map fst (state_dict m)
    = ["hidden_layers.0.weight"; "hidden_layers.0.bias";
       "hidden_layers.1.weight"; "hidden_layers.1.bias";
       "hidden_layers.2.weight"; "hidden_layers.2.bias";
       "output.weight"; "output.bias"].
Proof.
  intros [[|l0 [|l1 [|l2 [|l3 ls]]]] o] Hlen; try discriminate Hlen. reflexivity.
Qed.

(** ** Instances *)

(** X1, witness: loading an integer into [fc_model.Network(3, 2, [4])]. *)
Lemma load_state_dict_keeps_architecture_witness :
  exists m',
    heap (snd (load_state_dict 0%nat (PyInt 5) (example_world [example_model 3 2 4])))
      !! 0%nat = Some m' /\
    same_architecture m' (example_model 3 2 4) /\
    (forall obj, obj <> 0%nat ->
       heap (snd (load_state_dict 0%nat (PyInt 5) (example_world [example_model 3 2 4])))
         !! obj = heap (example_world [example_model 3 2 4]) !! obj) /\
    fs (snd (load_state_dict 0%nat (PyInt 5) (example_world [example_model 3 2 4])))
    = fs (example_world [example_model 3 2 4]).
Proof.
  apply (load_state_dict_keeps_architecture (example_world [example_model 3 2 4]) 0%nat
           (example_model 3 2 4) (PyInt 5)).
  reflexivity.
Defined.

(** X2, witness: the state dict of [fc_model.Network(3, 2, [4])] loaded
    into a blank model of the same sizes. *)
Lemma state_dict_roundtrip_witness :
  exists w1 w2,
    save_state_dict 0%nat (example_world [example_model 3 2 4; blank_model 3 2 4])
      = (Ok tt, w1) /\
    reload_state_dict 1%nat w1 = (Ok tt, w2) /\
    heap w2 = <[1%nat := example_model 3 2 4]> [example_model 3 2 4; blank_model 3 2 4] /\
    (1%nat = 0%nat -> heap w2 = [example_model 3 2 4; blank_model 3 2 4]).
Proof.
  apply (state_dict_roundtrip (example_world [example_model 3 2 4; blank_model 3 2 4])
           0%nat 1%nat (example_model 3 2 4) (blank_model 3 2 4)).
  - reflexivity.
  - reflexivity.
  - split; [repeat constructor | repeat split].
Defined.

(** X3, witness: the state dict file of [fc_model.Network(3, 2, [4])]. *)
Lemma load_checkpoint_of_state_dict_witness :
  exists w1 w2,
    save_state_dict 0%nat (example_world [example_model 3 2 4]) = (Ok tt, w1) /\
    load_checkpoint ramp "checkpoint.pth" w1 = (Raise (KeyError "input_size"), w2) /\
    heap w2 = heap (example_world [example_model 3 2 4]) /\
    calls w2 = calls w1 ++ [CallTorchLoad "checkpoint.pth"].
Proof.
  apply (load_checkpoint_of_state_dict ramp (example_world [example_model 3 2 4]) 0%nat
           (example_model 3 2 4)).
  reflexivity.
Defined.

(** X4, witness: a dictionary with an input size and nothing else. *)
Lemma load_checkpoint_missing_key_witness :
  exists key w',
    load_checkpoint ramp "checkpoint.pth"
      (World [] {["checkpoint.pth" := Pickle (PyDict [("input_size", PyInt 784)])]} [])
    = (Raise (KeyError key), w') /\
    heap w' = [] /\
    key = "output_size".
Proof.
  apply (load_checkpoint_missing_key ramp
           (World [] {["checkpoint.pth" := Pickle (PyDict [("input_size", PyInt 784)])]} [])
           "checkpoint.pth" [("input_size", PyInt 784)]).
  - vm_compute. reflexivity.
  - right. left. reflexivity.
Defined.

(** X6, witness: the checkpoint of [fc_model.Network(784, 10, [2])]. *)
Lemma load_checkpoint_sound_witness :
  exists kvs i o hs sd m',
    fs (snd (save 0%nat (example_world [example_model 784 10 2]))) !! "checkpoint.pth"
      = Some (Pickle (PyDict kvs)) /\
    dict_get kvs "input_size" = Some (PyInt i) /\
    dict_get kvs "output_size" = Some (PyInt o) /\
    dict_get kvs "hidden_layers" = Some (PyList (map PyInt hs)) /\
    dict_get kvs "state_dict" = Some (PyDict sd) /\
    heap (snd (load_checkpoint ramp "checkpoint.pth"
                 (snd (save 0%nat (example_world [example_model 784 10 2])))))
      !! 1%nat = Some m' /\
    input_size m' = i /\ output_size m' = o /\ hidden_layer_sizes m' = hs /\
    (forall k t, (k, t) ∈ state_dict m' -> dict_get sd k = Some (PyTensor t)) /\
    (forall k, k ∈ map fst sd -> k ∈ map fst (state_dict m')).
Proof.
  apply (load_checkpoint_sound ramp "checkpoint.pth"
           (snd (save 0%nat (example_world [example_model 784 10 2]))) 1%nat).
  vm_compute. reflexivity.
Defined.

(** X7, witness: the checkpoint of [fc_model.Network(784, 10, [2])] loaded
    behind a blank initialisation. *)
Lemma load_checkpoint_any_init_witness :
  load_checkpoint (fun _ _ => 0) "checkpoint.pth"
    (snd (save 0%nat (example_world [example_model 784 10 2])))
  = (Ok 1%nat,
     snd (load_checkpoint ramp "checkpoint.pth"
            (snd (save 0%nat (example_world [example_model 784 10 2]))))).
Proof.
  apply (load_checkpoint_any_init ramp (fun _ _ => 0) "checkpoint.pth"
           (snd (save 0%nat (example_world [example_model 784 10 2]))) 1%nat).
  vm_compute. reflexivity.
Defined.

(** X11, witness: an epoch of 30 batches that starts at step 58, 18 steps
    after a multiple of 40: its first line sums 22 losses. *)
Lemma epoch_first_line_witness :
  exists rest,
    printed (epoch Z 0 Z.add Z.div (fun _ => map Z.of_nat (seq 1 30)) (Progress 58 0 []) 1)
    = [] ++ (1 + 1, Z.div (total Z 0 Z.add (take (Z.to_nat (40 - 18))
                                               (map Z.of_nat (seq 1 30)))) 40) :: rest.
Proof.
  apply (epoch_first_line 0 Z.add Z.div (fun _ => map Z.of_nat (seq 1 30))
           (Progress 58 0 []) 1 18).
  - cbn. lia.
  - reflexivity.
  - lia.
  - vm_compute. lia.
Defined.
